(** * Keybox: access decisions, session ledger, device liveness, command relay

    A shallow embedding of the request handlers of [kbox_app] that decide a
    badge swipe, keep the transaction ledger, answer controller polls and
    record heartbeats, together with the properties the specification
    states about them.

    Conventions of the embedding.
    - A point in time is an integer number of microseconds counted from
      1970-01-01 00:00 of the server's local calendar; a time of day is the
      number of microseconds since midnight.
    - Text is a [string] over the ASCII range.
    - A database table is the list of its rows in storage order; a foreign
      key is the primary key of the row it points to.  The handlers receive
      the database and the clock reading and return the new database with
      the response. *)

From Stdlib Require Import ZArith List String Ascii Bool Lia.
Import ListNotations.

Open Scope string_scope.
Open Scope Z_scope.

(** ** Python text operations used by the handlers *)

Module Py.

(** Characters removed by [str.strip()]. *)
Definition isspace (c : ascii) : bool :=
  let n := Z.of_nat (nat_of_ascii c) in
  ((9 <=? n) && (n <=? 13)) || ((28 <=? n) && (n <=? 32)).

Definition lower_char (c : ascii) : ascii :=
  let n := nat_of_ascii c in
  if ((65 <=? n) && (n <=? 90))%nat then ascii_of_nat (n + 32) else c.

Definition upper_char (c : ascii) : ascii :=
  let n := nat_of_ascii c in
  if ((97 <=? n) && (n <=? 122))%nat then ascii_of_nat (n - 32) else c.

Fixpoint lower (s : string) : string :=
  match s with
  | EmptyString => EmptyString
  | String c r => String (lower_char c) (lower r)
  end.

Definition capitalize (s : string) : string :=
  match s with
  | EmptyString => EmptyString
  | String c r => String (upper_char c) (lower r)
  end.

Fixpoint lstrip (s : string) : string :=
  match s with
  | EmptyString => EmptyString
  | String c r => if isspace c then lstrip r else s
  end.

Fixpoint reverse_onto (s acc : string) : string :=
  match s with
  | EmptyString => acc
  | String c r => reverse_onto r (String c acc)
  end.

Definition reverse (s : string) : string := reverse_onto s EmptyString.

Definition rstrip (s : string) : string := reverse (lstrip (reverse s)).

Definition strip (s : string) : string := rstrip (lstrip s).

(** [s.split(sep)] for a one-character separator: never the empty list. *)
Fixpoint split (sep : ascii) (s : string) : list string :=
  match s with
  | EmptyString => [EmptyString]
  | String c r =>
      if Ascii.eqb c sep then EmptyString :: split sep r
      else match split sep r with
           | h :: t => String c h :: t
           | [] => [String c EmptyString]
           end
  end.

(** [s[:n]] *)
Definition prefix (n : nat) (s : string) : string := substring 0 n s.

(** [x in xs] on a list of strings. *)
Definition contains (x : string) (xs : list string) : bool :=
  existsb (String.eqb x) xs.

(** Truth value of an optional text: [None] and [''] are false. *)
Definition truthy (o : option string) : bool :=
  match o with
  | Some s => negb (String.eqb s "")
  | None => false
  end.

(** [a or b] on optional texts. *)
Definition or_ (a b : option string) : option string :=
  if truthy a then a else b.

End Py.

(** ** Clock readings *)

Module Clock.

Definition usec_per_second : Z := 1000000.
Definition usec_per_minute : Z := 60 * usec_per_second.
Definition usec_per_hour : Z := 60 * usec_per_minute.
Definition usec_per_day : Z := 24 * usec_per_hour.

(** [timedelta(seconds=n)] *)
Definition timedelta_seconds (n : Z) : Z := n * usec_per_second.

Inductive weekday :=
| Monday | Tuesday | Wednesday | Thursday | Friday | Saturday | Sunday.

(** 1970-01-01 was a Thursday. *)
Definition weekday_of (now : Z) : weekday :=
  match (now / usec_per_day + 3) mod 7 with
  | 0 => Monday
  | 1 => Tuesday
  | 2 => Wednesday
  | 3 => Thursday
  | 4 => Friday
  | 5 => Saturday
  | _ => Sunday
  end.

(** [now.time()] *)
Definition time (now : Z) : Z := now mod usec_per_day.

(** [strftime("%A")] *)
Definition strftime_A (now : Z) : string :=
  match weekday_of now with
  | Monday => "Monday"
  | Tuesday => "Tuesday"
  | Wednesday => "Wednesday"
  | Thursday => "Thursday"
  | Friday => "Friday"
  | Saturday => "Saturday"
  | Sunday => "Sunday"
  end.

Definition digit (n : Z) : ascii := ascii_of_nat (48 + Z.to_nat (n mod 10)).

Definition two_digits (n : Z) : string :=
  String (digit (n / 10)) (String (digit n) EmptyString).

(** [t.strftime('%I:%M %p')] on a time of day. *)
Definition strftime_I_M_p (t : Z) : string :=
  let h := t / usec_per_hour in
  let m := (t mod usec_per_hour) / usec_per_minute in
  let h12 := if h mod 12 =? 0 then 12 else h mod 12 in
  let p := if h <? 12 then "AM" else "PM" in
  (two_digits h12 ++ ":" ++ two_digits m ++ " " ++ p)%string.

(** A reading from its calendar parts: days since the epoch, hour, minute. *)
Definition at_ (day hour minute : Z) : Z :=
  day * usec_per_day + hour * usec_per_hour + minute * usec_per_minute.

(** A time of day from hour and minute. *)
Definition hm (hour minute : Z) : Z :=
  hour * usec_per_hour + minute * usec_per_minute.

End Clock.

(** ** models.py *)

Module Room.
Record t := mk {
  id : Z;
  code : string;
  description : string;
  is_active : bool
}.
End Room.

Module Faculty.
Record t := mk {
  id : Z;
  school_id : string;
  full_name : string;
  department : string;
  is_active : bool
}.
End Faculty.

(** A registration carries its faculty row, as [rfid.faculty] does in the
    handlers (a required foreign key, deleted in cascade). *)
Module RFIDRegistration.
Record t := mk {
  id : Z;
  rfid_code : string;
  faculty : Faculty.t;
  room : Z;
  is_active : bool
}.
End RFIDRegistration.

Module RoomSchedule.
Record t := mk {
  id : Z;
  room : Z;
  semester : string;
  day_of_week : string;
  start_time : Z;
  end_time : Z;
  subject : string;
  instructor_name : string;
  faculty : option Z;
  is_active : bool;
  updated_at : Z
}.
End RoomSchedule.

Module TransactionLog.
Record t := mk {
  id : Z;
  rfid : option Z;
  room : option Z;
  faculty_name : string;
  room_code : string;
  rfid_code : string;
  academic_year : string;
  semester : string;
  open_time : option Z;
  close_time : option Z;
  access_granted : bool;
  denial_reason : option string;
  schedule : option Z
}.

Definition with_close_time (c : option Z) (l : t) : t :=
  mk (id l) (rfid l) (room l) (faculty_name l) (room_code l) (rfid_code l)
     (academic_year l) (semester l) (open_time l) c (access_granted l)
     (denial_reason l) (schedule l).
End TransactionLog.

Module SystemSettings.
Record t := mk {
  current_academic_year : string;
  current_semester : string
}.

(** Field defaults of the model. *)
Definition default : t := mk "2025-2026" "1st".
End SystemSettings.

Module ManualDoorLog.
Record t := mk {
  id : Z;
  room : Z;
  staff_user : option Z;
  action : string;
  timestamp : Z;
  notes : string
}.
End ManualDoorLog.

Module ESP32Device.
Record t := mk {
  id : Z;
  device_name : string;
  device_id : string;
  room : option Z;
  ip_address : option string;
  last_heartbeat : option Z;
  is_active : bool;
  firmware_version : string;
  created_at : Z;
  updated_at : Z
}.

(** [is_online], with the clock reading [timezone.now()] as [now]. *)
Definition is_online (now : Z) (self : t) : bool :=
  match last_heartbeat self with
  | None => false
  | Some hb =>
      let time_threshold := now - Clock.timedelta_seconds 30 in
      time_threshold <=? hb
  end.

End ESP32Device.

(** ** The database and the ORM calls the handlers make *)

Module Db.
Record t := mk {
  rooms : list Room.t;
  rfid_registrations : list RFIDRegistration.t;
  room_schedules : list RoomSchedule.t;
  transaction_logs : list TransactionLog.t;
  system_settings : option SystemSettings.t;
  manual_door_logs : list ManualDoorLog.t;
  esp32_devices : list ESP32Device.t
}.

Definition with_transaction_logs (ls : list TransactionLog.t) (d : t) : t :=
  mk (rooms d) (rfid_registrations d) (room_schedules d) ls
     (system_settings d) (manual_door_logs d) (esp32_devices d).

Definition with_system_settings (s : option SystemSettings.t) (d : t) : t :=
  mk (rooms d) (rfid_registrations d) (room_schedules d)
     (transaction_logs d) s (manual_door_logs d) (esp32_devices d).

Definition with_manual_door_logs (ls : list ManualDoorLog.t) (d : t) : t :=
  mk (rooms d) (rfid_registrations d) (room_schedules d)
     (transaction_logs d) (system_settings d) ls (esp32_devices d).

Definition with_esp32_devices (ds : list ESP32Device.t) (d : t) : t :=
  mk (rooms d) (rfid_registrations d) (room_schedules d)
     (transaction_logs d) (system_settings d) (manual_door_logs d) ds.

(** Primary key given to an inserted row: one past the largest in use. *)
Definition next_id (ids : list Z) : Z := 1 + fold_right Z.max 0 ids.

(** [SystemSettings.get_current_term]: [get_or_create(pk=1)]. *)
Definition get_current_term (d : t) : t * SystemSettings.t :=
  match system_settings d with
  | Some s => (d, s)
  | None =>
      (with_system_settings (Some SystemSettings.default) d,
       SystemSettings.default)
  end.

(** [TransactionLog.objects.create(...)]: [row] is the new row but for
    its primary key. *)
Definition create_transaction_log (row : Z -> TransactionLog.t) (d : t)
  : t * TransactionLog.t :=
  let new := row (next_id (map TransactionLog.id (transaction_logs d))) in
  (with_transaction_logs (transaction_logs d ++ [new]) d, new).

(** [instance.save()] on a transaction row: the row with the instance's
    primary key takes all the instance's fields. *)
Definition save_transaction_log (inst : TransactionLog.t) (d : t) : t :=
  with_transaction_logs
    (map (fun r => if TransactionLog.id r =? TransactionLog.id inst
                   then inst else r)
         (transaction_logs d))
    d.

Definition option_Z_eqb (a b : option Z) : bool :=
  match a, b with
  | Some x, Some y => x =? y
  | None, None => true
  | _, _ => false
  end.

Definition isnull {A : Type} (o : option A) : bool :=
  match o with
  | None => true
  | Some _ => false
  end.

(** Ordering of [open_time] values, the null value lowest. *)
Definition open_time_ltb (a b : TransactionLog.t) : bool :=
  match TransactionLog.open_time a, TransactionLog.open_time b with
  | _, None => false
  | None, Some _ => true
  | Some x, Some y => x <? y
  end.

(** [.order_by("-open_time").first()]: a row of greatest [open_time],
    the earliest stored one among equals. *)
Fixpoint first_by_open_time_desc (ls : list TransactionLog.t)
  : option TransactionLog.t :=
  match ls with
  | [] => None
  | l :: r =>
      match first_by_open_time_desc r with
      | None => Some l
      | Some m => if open_time_ltb l m then Some m else Some l
      end
  end.

(** [.order_by('-timestamp').first()] on manual door commands. *)
Fixpoint first_by_timestamp_desc (ls : list ManualDoorLog.t)
  : option ManualDoorLog.t :=
  match ls with
  | [] => None
  | l :: r =>
      match first_by_timestamp_desc r with
      | None => Some l
      | Some m =>
          if ManualDoorLog.timestamp l <? ManualDoorLog.timestamp m
          then Some m else Some l
      end
  end.

(** The join [room__code = code] from a row's [room] key. *)
Definition room_has_code (d : t) (room_id : Z) (code : string) : bool :=
  existsb (fun r => (Room.id r =? room_id) && String.eqb (Room.code r) code)
          (rooms d).

(** The term a handler reads: the stored one, or the defaults. *)
Definition current_term (d : t) : SystemSettings.t := snd (get_current_term d).

End Db.

(** ** views.py *)

Module views.

(** *** rfid_swipe *)

Module SwipeRequest.
Record t := mk {
  GET_code : option string;
  POST_code : option string;
  GET_room : option string;
  POST_room : option string
}.
End SwipeRequest.

Module SwipeResponse.
Record t := mk {
  http_status : Z;
  status : string;
  access_granted : bool;
  action : string;
  faculty : string;
  message : string;
  denial_reason : string
}.

Definition error (http : Z) (faculty message denial_reason : string) : t :=
  mk http "error" false "" faculty message denial_reason.
End SwipeResponse.

Definition text (o : option string) : string :=
  match o with
  | Some s => s
  | None => ""
  end.

(** [day_matches]: the names under which today is looked up. *)
Definition day_matches (current_day_full : string) : list string :=
  [current_day_full; Py.prefix 3 current_day_full;
   Py.capitalize current_day_full].

(** [days_list]: the stored days of a schedule, trimmed and lowered. *)
Definition days_list (schedule : RoomSchedule.t) : list string :=
  map (fun d => Py.lower (Py.strip d))
      (Py.split "," (RoomSchedule.day_of_week schedule)).

Definition day_match (dm : list string) (schedule : RoomSchedule.t) : bool :=
  existsb (fun day => Py.contains day (days_list schedule)) dm.

Definition time_match (current_time : Z) (schedule : RoomSchedule.t) : bool :=
  (RoomSchedule.start_time schedule <=? current_time)
  && (current_time <=? RoomSchedule.end_time schedule).

(** The schedule rows of the faculty in the room in the semester. *)
Definition matching_schedules (d : Db.t) (room : Room.t)
           (rfid : RFIDRegistration.t) (semester : string)
  : list RoomSchedule.t :=
  filter
    (fun s =>
       (RoomSchedule.room s =? Room.id room)
       && Db.option_Z_eqb (RoomSchedule.faculty s)
            (Some (Faculty.id (RFIDRegistration.faculty rfid)))
       && String.eqb (RoomSchedule.semester s) semester
       && RoomSchedule.is_active s)
    (Db.room_schedules d).

Definition matching_schedules_filtered (dm : list string) (current_time : Z)
           (ms : list RoomSchedule.t) : list RoomSchedule.t :=
  filter (fun s => day_match dm s && time_match current_time s) ms.

(** [day_only_match]: some schedule row names today. *)
Definition day_only_match (dm : list string) (ms : list RoomSchedule.t)
  : bool :=
  existsb (day_match dm) ms.

Definition outside_of_scheduled_time (current_time : Z) : string :=
  ("Outside of scheduled time (Current: "
     ++ Clock.strftime_I_M_p current_time ++ ")")%string.

Definition no_schedule_for (current_day_full semester : string) : string :=
  ("No schedule for " ++ Py.capitalize current_day_full ++ " in "
     ++ semester ++ " semester")%string.

(** The filter of the open-row query: the row is of the registration,
    the room and the term, not closed and granted. *)
Definition is_open_log (rfid room : Z) (academic_year semester : string)
           (l : TransactionLog.t) : bool :=
  Db.option_Z_eqb (TransactionLog.rfid l) (Some rfid)
  && Db.option_Z_eqb (TransactionLog.room l) (Some room)
  && String.eqb (TransactionLog.academic_year l) academic_year
  && String.eqb (TransactionLog.semester l) semester
  && Db.isnull (TransactionLog.close_time l)
  && TransactionLog.access_granted l.

Definition open_logs (d : Db.t) (rfid : RFIDRegistration.t) (room : Room.t)
           (academic_year semester : string) : list TransactionLog.t :=
  filter
    (is_open_log (RFIDRegistration.id rfid) (Room.id room)
                 academic_year semester)
    (Db.transaction_logs d).

Definition open_log (d : Db.t) (rfid : RFIDRegistration.t) (room : Room.t)
           (academic_year semester : string) : option TransactionLog.t :=
  Db.first_by_open_time_desc (open_logs d rfid room academic_year semester).

(** The schedule part of the handler: whether access is granted, the
    denial reason and the authorising schedule. *)
Definition decide (now : Z) (d : Db.t) (rfid : RFIDRegistration.t)
           (room : Room.t) (semester : string)
  : bool * option string * option RoomSchedule.t :=
  let current_day_full := Py.lower (Clock.strftime_A now) in
  let current_time := Clock.time now in
  let dm := day_matches current_day_full in
  let ms := matching_schedules d room rfid semester in
  let filtered := matching_schedules_filtered dm current_time ms in
  let access_granted := (0 <? Z.of_nat (List.length filtered)) in
  let active_schedule := if access_granted then hd_error filtered else None in
  let denial_reason :=
    if access_granted then None
    else if day_only_match dm ms
         then Some (outside_of_scheduled_time current_time)
         else Some (no_schedule_for current_day_full semester) in
  (access_granted, denial_reason, active_schedule).

(** The ledger part of the handler: close the open row, or insert. *)
Definition record_attempt (now : Z) (d : Db.t) (rfid : RFIDRegistration.t)
           (room : Room.t) (academic_year semester : string)
           (decision : bool * option string * option RoomSchedule.t)
  : Db.t * string * string :=
  let '(access_granted, denial_reason, active_schedule) := decision in
  if access_granted then
    match open_log d rfid room academic_year semester with
    | Some l =>
        (Db.save_transaction_log
           (TransactionLog.with_close_time (Some now) l) d,
         "return_key", "Key returned successfully")
    | None =>
        (fst (Db.create_transaction_log
                (fun pk =>
                   TransactionLog.mk pk (Some (RFIDRegistration.id rfid))
                     (Some (Room.id room)) "" "" "" academic_year semester
                     (Some now) None true None
                     (option_map RoomSchedule.id active_schedule))
                d),
         "borrow_key", "Access granted - Key released")
    end
  else
    (fst (Db.create_transaction_log
            (fun pk =>
               TransactionLog.mk pk (Some (RFIDRegistration.id rfid))
                 (Some (Room.id room)) "" "" "" academic_year semester
                 (Some now) None false denial_reason None)
            d),
     "", ("Access denied: " ++ text denial_reason)%string).

Definition rfid_swipe (now : Z) (request : SwipeRequest.t) (d : Db.t)
  : Db.t * SwipeResponse.t :=
  let code :=
    Py.or_ (SwipeRequest.GET_code request) (SwipeRequest.POST_code request) in
  let room_code :=
    Py.or_ (SwipeRequest.GET_room request) (SwipeRequest.POST_room request) in
  if negb (Py.truthy code) || negb (Py.truthy room_code) then
    (d, SwipeResponse.error 400 ""
          "Missing 'code' or 'room' parameter"
          "Invalid request - missing required parameters")
  else
    match find (fun r => String.eqb (RFIDRegistration.rfid_code r) (text code))
               (Db.rfid_registrations d) with
    | None =>
        (d, SwipeResponse.error 404 "" "RFID card not registered"
              "Card UID not found in database")
    | Some rfid =>
        let faculty := Faculty.full_name (RFIDRegistration.faculty rfid) in
        if negb (RFIDRegistration.is_active rfid) then
          (d, SwipeResponse.error 403 faculty "RFID card is disabled"
                "This card has been deactivated")
        else
          match find (fun r => String.eqb (Room.code r) (text room_code))
                     (Db.rooms d) with
          | None =>
              (d, SwipeResponse.error 404 faculty "Unknown room code"
                    ("Room " ++ text room_code ++ " not found in system")%string)
          | Some room =>
              if negb (Room.is_active room) then
                (d, SwipeResponse.error 403 faculty "Room is disabled"
                      ("Room " ++ text room_code
                         ++ " is currently inactive")%string)
              else
                let '(d1, system_settings) := Db.get_current_term d in
                let semester :=
                  SystemSettings.current_semester system_settings in
                let academic_year :=
                  SystemSettings.current_academic_year system_settings in
                let decision := decide now d1 rfid room semester in
                let '(access_granted, denial_reason, _) := decision in
                let '(d2, action, message) :=
                  record_attempt now d1 rfid room academic_year semester
                                 decision in
                (d2,
                 SwipeResponse.mk 200
                   (if access_granted then "ok" else "error")
                   access_granted action faculty message
                   (if access_granted then "" else text denial_reason))
          end
    end.

(** *** dashboard: the staff action that changes the current term *)

Definition dashboard_set_term (selected_ay selected_semester : string)
           (d : Db.t) : Db.t :=
  let '(d1, _) := Db.get_current_term d in
  Db.with_system_settings
    (Some (SystemSettings.mk selected_ay selected_semester)) d1.

(** *** manual_trigger_api *)

Module TriggerResponse.
Record t := mk {
  http_status : Z;
  has_trigger : bool;
  action : string;
  room : option string;
  message : string;
  timestamp : option Z
}.
End TriggerResponse.

(** [latest_operation]: the newest command for the room code not older
    than five seconds. *)
Definition latest_operation (now : Z) (room_code : string) (d : Db.t)
  : option ManualDoorLog.t :=
  let recent_time := now - Clock.timedelta_seconds 5 in
  Db.first_by_timestamp_desc
    (filter
       (fun m =>
          Db.room_has_code d (ManualDoorLog.room m) room_code
          && (recent_time <=? ManualDoorLog.timestamp m))
       (Db.manual_door_logs d)).


(** *** esp32_heartbeat *)

(** The request body: empty, not a JSON object, or a JSON object with
    its [device_id] and [firmware_version] members. *)
Inductive body :=
| BodyEmpty
| BodyInvalid
| BodyObject (device_id firmware_version : option string).

Module HeartbeatRequest.
Record t := mk {
  GET_device_id : option string;
  GET_firmware_version : option string;
  POST_device_id : option string;
  POST_firmware_version : option string;
  request_body : body;
  HTTP_X_FORWARDED_FOR : option string;
  REMOTE_ADDR : option string
}.
End HeartbeatRequest.

Module HeartbeatResponse.
Record t := mk {
  http_status : Z;
  status : string;
  message : string;
  device_name : option string;
  room : option string;
  timestamp : option Z
}.
End HeartbeatResponse.

(** The three places the identifier is read from, in order. *)
Definition heartbeat_params (request : HeartbeatRequest.t)
  : option string * option string :=
  let device_id := HeartbeatRequest.GET_device_id request in
  let firmware_version := HeartbeatRequest.GET_firmware_version request in
  let '(device_id, firmware_version) :=
    if negb (Py.truthy device_id)
    then (HeartbeatRequest.POST_device_id request,
          HeartbeatRequest.POST_firmware_version request)
    else (device_id, firmware_version) in
  if negb (Py.truthy device_id) then
    match HeartbeatRequest.request_body request with
    | BodyObject i f => (i, f)
    | BodyEmpty | BodyInvalid => (device_id, firmware_version)
    end
  else (device_id, firmware_version).

(** The address recorded for the caller. *)
Definition client_ip (request : HeartbeatRequest.t) : option string :=
  let x_forwarded_for := HeartbeatRequest.HTTP_X_FORWARDED_FOR request in
  if Py.truthy x_forwarded_for
  then Some (Py.strip (hd "" (Py.split "," (text x_forwarded_for))))
  else HeartbeatRequest.REMOTE_ADDR request.

Definition with_heartbeat (hb : Z) (ip : option string) (r : ESP32Device.t)
  : ESP32Device.t :=
  ESP32Device.mk (ESP32Device.id r) (ESP32Device.device_name r)
    (ESP32Device.device_id r) (ESP32Device.room r) ip (Some hb)
    (ESP32Device.is_active r) (ESP32Device.firmware_version r)
    (ESP32Device.created_at r) (ESP32Device.updated_at r).

(** [device.save()]: every field of the instance is written and the
    [auto_now] field [updated_at] takes the clock reading. *)
Definition save_device (now : Z) (inst : ESP32Device.t) (d : Db.t) : Db.t :=
  Db.with_esp32_devices
    (map (fun r =>
            if ESP32Device.id r =? ESP32Device.id inst then
              ESP32Device.mk (ESP32Device.id inst)
                (ESP32Device.device_name inst) (ESP32Device.device_id inst)
                (ESP32Device.room inst) (ESP32Device.ip_address inst)
                (ESP32Device.last_heartbeat inst)
                (ESP32Device.is_active inst)
                (ESP32Device.firmware_version inst)
                (ESP32Device.created_at inst) now
            else r)
         (Db.esp32_devices d))
    d.

(** [device.save(update_fields=['last_heartbeat', 'ip_address'])]: only
    the two named columns of the stored row are written. *)
Definition save_device_heartbeat (inst : ESP32Device.t) (d : Db.t) : Db.t :=
  Db.with_esp32_devices
    (map (fun r =>
            if ESP32Device.id r =? ESP32Device.id inst then
              ESP32Device.mk (ESP32Device.id r) (ESP32Device.device_name r)
                (ESP32Device.device_id r) (ESP32Device.room r)
                (ESP32Device.ip_address inst)
                (ESP32Device.last_heartbeat inst)
                (ESP32Device.is_active r) (ESP32Device.firmware_version r)
                (ESP32Device.created_at r) (ESP32Device.updated_at r)
            else r)
         (Db.esp32_devices d))
    d.

Definition with_firmware_version (v : string) (r : ESP32Device.t)
  : ESP32Device.t :=
  ESP32Device.mk (ESP32Device.id r) (ESP32Device.device_name r)
    (ESP32Device.device_id r) (ESP32Device.room r)
    (ESP32Device.ip_address r) (ESP32Device.last_heartbeat r)
    (ESP32Device.is_active r) v
    (ESP32Device.created_at r) (ESP32Device.updated_at r).

(** [ESP32Device.objects.get(device_id=device_id, is_active=True)] *)
Definition get_active_device (device_id : string) (d : Db.t)
  : option ESP32Device.t :=
  find (fun r => String.eqb (ESP32Device.device_id r) device_id
                 && ESP32Device.is_active r)
       (Db.esp32_devices d).

Definition room_code_of (d : Db.t) (room : option Z) : option string :=
  match room with
  | None => None
  | Some i => option_map Room.code (find (fun r => Room.id r =? i) (Db.rooms d))
  end.

Definition esp32_heartbeat (now : Z) (request : HeartbeatRequest.t)
           (d : Db.t) : Db.t * HeartbeatResponse.t :=
  let '(device_id, firmware_version) := heartbeat_params request in
  if negb (Py.truthy device_id) then
    (d, HeartbeatResponse.mk 400 "error" "Missing device_id parameter"
          None None None)
  else
    match get_active_device (text device_id) d with
    | None =>
        (d, HeartbeatResponse.mk 404 "error"
              "Device not registered or inactive" None None None)
    | Some device =>
        let device := with_heartbeat now (client_ip request) device in
        let d' :=
          if Py.truthy firmware_version
             && negb (String.eqb (text firmware_version)
                                 (ESP32Device.firmware_version device))
          then save_device now
                 (with_firmware_version (text firmware_version) device) d
          else save_device_heartbeat device d in
        (d', HeartbeatResponse.mk 200 "success" "Heartbeat received"
               (Some (ESP32Device.device_name device))
               (room_code_of d (ESP32Device.room device))
               (ESP32Device.last_heartbeat device))
    end.

End views.

(** ** views_management.py *)

Module views_management.

(** The [room_id] form field: missing or empty, the decimal text of an
    integer, or any other text. *)
Inductive room_id_field :=
| RoomIdMissing
| RoomIdInt (i : Z)
| RoomIdText.

Module TriggerRequest.
Record t := mk {
  method : string;
  POST_room_id : room_id_field;
  POST_action : option string;
  POST_notes : option string;
  user : Z
}.
End TriggerRequest.

(** What the handler reports back to the staff member before the
    redirect. *)
Inductive flash :=
| NoMessage
| InvalidRequest
| CommandSent (manual_log : ManualDoorLog.t)
| RoomNotFound
| ErrorRaised.

(** [ManualDoorLog.objects.create(...)]; [timestamp] is [auto_now_add]. *)
Definition create_manual_door_log (now : Z) (room : Room.t) (staff_user : Z)
           (action notes : string) (d : Db.t) : Db.t * ManualDoorLog.t :=
  let new :=
    ManualDoorLog.mk
      (Db.next_id (map ManualDoorLog.id (Db.manual_door_logs d)))
      (Room.id room) (Some staff_user) action now notes in
  (Db.with_manual_door_logs (Db.manual_door_logs d ++ [new]) d, new).

Definition manual_door_trigger (now : Z) (request : TriggerRequest.t)
           (d : Db.t) : Db.t * flash :=
  if String.eqb (TriggerRequest.method request) "POST" then
    let action := TriggerRequest.POST_action request in
    let notes := views.text (TriggerRequest.POST_notes request) in
    let action_ok :=
      match action with
      | Some a => Py.contains a ["open"; "close"]
      | None => false
      end in
    match TriggerRequest.POST_room_id request with
    | RoomIdMissing => (d, InvalidRequest)
    | RoomIdText => if action_ok then (d, ErrorRaised) else (d, InvalidRequest)
    | RoomIdInt room_id =>
        if negb action_ok then (d, InvalidRequest)
        else
          match find (fun r => (Room.id r =? room_id) && Room.is_active r)
                     (Db.rooms d) with
          | None => (d, RoomNotFound)
          | Some room =>
              let '(d', manual_log) :=
                create_manual_door_log now room (TriggerRequest.user request)
                  (views.text action) notes d in
              (d', CommandSent manual_log)
          end
    end
  else (d, NoMessage).

End views_management.

(** ** views_api.py *)

Module views_api.

Module CheckResponse.
Record t := mk {
  http_status : Z;
  status : string;
  needs_update : option bool;
  current_semester : option string;
  current_ay : option string;
  message : string
}.
End CheckResponse.

Section CheckUpdates.

(** [django.utils.dateparse.parse_datetime] followed by the use of its
    result as a query value: [None] when the text is not a date and
    time, which ends in the handler's [except] branch. *)
Variable parse_datetime : string -> option Z.

(** The schedule rows of the room and the semester modified after
    [last_sync_dt]. *)
Definition updated_schedules (d : Db.t) (room : Room.t)
           (semester : string) (last_sync_dt : Z) : list RoomSchedule.t :=
  filter
    (fun s =>
       (RoomSchedule.room s =? Room.id room)
       && String.eqb (RoomSchedule.semester s) semester
       && (last_sync_dt <? RoomSchedule.updated_at s))
    (Db.room_schedules d).

Definition needs_update (d : Db.t) (room : Room.t) (semester : string)
           (last_sync : option string) : bool :=
  if Py.truthy last_sync then
    match parse_datetime (views.text last_sync) with
    | Some last_sync_dt =>
        0 <? Z.of_nat
               (List.length (updated_schedules d room semester last_sync_dt))
    | None => true
    end
  else true.

Definition esp32_check_updates (GET_room GET_last_sync : option string)
           (d : Db.t) : Db.t * CheckResponse.t :=
  let room_code := GET_room in
  let last_sync := GET_last_sync in
  if negb (Py.truthy room_code) then
    (d, CheckResponse.mk 400 "error" None None None
          "Missing 'room' parameter")
  else
    match find (fun r => String.eqb (Room.code r) (views.text room_code)
                         && Room.is_active r)
               (Db.rooms d) with
    | None =>
        (d, CheckResponse.mk 404 "error" None None None
              ("Room " ++ views.text room_code ++ " not found")%string)
    | Some room =>
        let '(d1, system_settings) := Db.get_current_term d in
        let semester := SystemSettings.current_semester system_settings in
        let nu := needs_update d1 room semester last_sync in
        (d1, CheckResponse.mk 200 "success" (Some nu) (Some semester)
               (Some (SystemSettings.current_academic_year system_settings))
               (if nu then "Update required"
                else "Schedules are up to date"))
    end.

End CheckUpdates.

(** The [timestamp] member of an offline event: null or absent, or a
    value with its conversion to a date and time ([None] when the value
    does not convert). *)
Inductive json_timestamp :=
| TsNull
| TsValue (converted : option Z).

Module OfflineEvent.
Record t := mk {
  room_code : option string;
  rfid_code : option string;
  access_granted : option bool;
  timestamp : json_timestamp
}.
End OfflineEvent.

Module OfflineResponse.
Record t := mk {
  http_status : Z;
  status : string;
  message : string
}.
End OfflineResponse.

(** The row the handler inserts, when the flag and the timestamp fit
    their columns. *)
Definition offline_row (rfid : RFIDRegistration.t) (room : Room.t)
           (settings : SystemSettings.t) (event : OfflineEvent.t)
  : option (Z -> TransactionLog.t) :=
  match OfflineEvent.access_granted event, OfflineEvent.timestamp event with
  | None, _ => None
  | Some _, TsValue None => None
  | Some granted, ts =>
      let open_time :=
        match ts with
        | TsNull => None
        | TsValue t => t
        end in
      Some (fun pk =>
              TransactionLog.mk pk (Some (RFIDRegistration.id rfid))
                (Some (Room.id room))
                (Faculty.full_name (RFIDRegistration.faculty rfid))
                (views.text (OfflineEvent.room_code event))
                (views.text (OfflineEvent.rfid_code event))
                (SystemSettings.current_academic_year settings)
                (SystemSettings.current_semester settings)
                open_time None granted None None)
  end.

Definition lookup_code {A : Type} (code_of : A -> string)
           (code : option string) (rows : list A) : option A :=
  match code with
  | None => None
  | Some c => find (fun r => String.eqb (code_of r) c) rows
  end.

(** [request_body] is [None] when the body is not a JSON object.  The
    message of an error response stands for the text of the exception. *)
Definition esp32_log_offline_access (request_body : option OfflineEvent.t)
           (d : Db.t) : Db.t * OfflineResponse.t :=
  match request_body with
  | None => (d, OfflineResponse.mk 400 "error" "Invalid request")
  | Some data =>
      match lookup_code RFIDRegistration.rfid_code
              (OfflineEvent.rfid_code data) (Db.rfid_registrations d) with
      | None => (d, OfflineResponse.mk 500 "error" "DoesNotExist")
      | Some rfid =>
          match lookup_code Room.code (OfflineEvent.room_code data)
                  (Db.rooms d) with
          | None => (d, OfflineResponse.mk 500 "error" "DoesNotExist")
          | Some room =>
              let '(d1, system_settings) := Db.get_current_term d in
              match offline_row rfid room system_settings data with
              | None => (d1, OfflineResponse.mk 500 "error" "not saved")
              | Some row =>
                  (fst (Db.create_transaction_log row d1),
                   OfflineResponse.mk 200 "success" "Offline access logged")
              end
          end
      end
  end.

End views_api.

(** ** The ledger as a transition system *)

Module Ledger.

(** Number of open granted rows of a credential, a room and a term. *)
Definition open_count (rfid room : Z) (academic_year semester : string)
           (logs : list TransactionLog.t) : nat :=
  List.length (filter (views.is_open_log rfid room academic_year semester) logs).

(** "The key is currently out" at most once per credential, room, term. *)
Definition currently_out_invariant (logs : list TransactionLog.t) : Prop :=
  forall rfid room academic_year semester,
    (open_count rfid room academic_year semester logs <= 1)%nat.

(** The operations that write the ledger or the term. *)
Inductive operation :=
| Swipe (now : Z) (request : views.SwipeRequest.t)
| OfflineMerge (request_body : option views_api.OfflineEvent.t)
| SetTerm (academic_year semester : string).

Definition run (o : operation) (d : Db.t) : Db.t :=
  match o with
  | Swipe now request => fst (views.rfid_swipe now request d)
  | OfflineMerge request_body =>
      fst (views_api.esp32_log_offline_access request_body d)
  | SetTerm ay sem => views.dashboard_set_term ay sem d
  end.

Definition run_all (os : list operation) (d : Db.t) : Db.t :=
  fold_left (fun acc o => run o acc) os d.

(** States reached from [d0] by any operations. *)
Inductive reachable (d0 : Db.t) : Db.t -> Prop :=
| reachable_start : reachable d0 d0
| reachable_step d o : reachable d0 d -> reachable d0 (run o d).

(** An offline event is unmatched in [d] when it is not a grant, or
    when the credential and the room it names have no open row in the
    current term.  Live swipes and term changes are always admissible. *)
Definition admissible (o : operation) (d : Db.t) : Prop :=
  match o with
  | OfflineMerge (Some data) =>
      views_api.OfflineEvent.access_granted data = Some true ->
      forall rfid room,
        views_api.lookup_code RFIDRegistration.rfid_code
          (views_api.OfflineEvent.rfid_code data) (Db.rfid_registrations d)
        = Some rfid ->
        views_api.lookup_code Room.code
          (views_api.OfflineEvent.room_code data) (Db.rooms d)
        = Some room ->
        open_count (RFIDRegistration.id rfid) (Room.id room)
          (SystemSettings.current_academic_year (Db.current_term d))
          (SystemSettings.current_semester (Db.current_term d))
          (Db.transaction_logs d) = 0%nat
  | OfflineMerge None | Swipe _ _ | SetTerm _ _ => True
  end.

(** States reached from [d0] by admissible operations. *)
Inductive admissibly_reachable (d0 : Db.t) : Db.t -> Prop :=
| admissible_start : admissibly_reachable d0 d0
| admissible_step d o :
    admissibly_reachable d0 d -> admissible o d ->
    admissibly_reachable d0 (run o d).

End Ledger.

(** ** The scenario of the specification *)

Module Scenario.

Definition prof : Faculty.t := Faculty.mk 1 "F-001" "Prof F" "COE" true.
Definition room203 : Room.t := Room.mk 1 "203" "" true.
Definition card : RFIDRegistration.t :=
  RFIDRegistration.mk 1 "RFID-001" prof 1 true.
Definition window : RoomSchedule.t :=
  RoomSchedule.mk 1 1 "1st" "monday" (Clock.hm 8 0) (Clock.hm 10 0)
                  "Circuits" "Prof F" (Some 1) true (Clock.at_ 0 0 1).

Definition db0 : Db.t :=
  Db.mk [room203] [card] [window] []
        (Some (SystemSettings.mk "2025-2026" "1st")) [] [].

Definition swipe : views.SwipeRequest.t :=
  views.SwipeRequest.mk (Some "RFID-001") None (Some "203") None.

(** Day 4 after the epoch, 1970-01-05, was a Monday. *)
Definition monday_0830 : Z := Clock.at_ 4 8 30.
Definition monday_0900 : Z := Clock.at_ 4 9 0.
Definition monday_1001 : Z := Clock.at_ 4 10 1.
Definition tuesday_0830 : Z := Clock.at_ 5 8 30.

Definition offline_grant : views_api.OfflineEvent.t :=
  views_api.OfflineEvent.mk (Some "203") (Some "RFID-001") (Some true)
    (views_api.TsValue (Some monday_0900)).

(** A window on two days, stored as one comma-separated text. *)
Definition window_mw : RoomSchedule.t :=
  RoomSchedule.mk 2 1 "1st" "monday,wednesday" (Clock.hm 8 0)
                  (Clock.hm 10 0) "Circuits" "Prof F" (Some 1) true 0.

Definition db_mw : Db.t :=
  Db.mk [room203] [card] [window_mw] []
        (Some (SystemSettings.mk "2025-2026" "1st")) [] [].

Definition wednesday_0830 : Z := Clock.at_ 6 8 30.
Definition monday_1000 : Z := Clock.at_ 4 10 0.

(** The ledger after the first swipe: the key is out. *)
Definition db1 : Db.t := fst (views.rfid_swipe monday_0830 swipe db0).

(** The ledger after an offline grant is merged on top of it. *)
Definition db2 : Db.t :=
  Ledger.run_all [Ledger.Swipe monday_0830 swipe;
                  Ledger.OfflineMerge (Some offline_grant)] db0.

(** The same data with the card, or the room, deactivated. *)
Definition card_off : RFIDRegistration.t :=
  RFIDRegistration.mk 1 "RFID-001" prof 1 false.
Definition room203_off : Room.t := Room.mk 1 "203" "" false.

Definition db_card_off : Db.t :=
  Db.mk [room203] [card_off] [window] []
        (Some (SystemSettings.mk "2025-2026" "1st")) [] [].

Definition db_room_off : Db.t :=
  Db.mk [room203_off] [card] [window] []
        (Some (SystemSettings.mk "2025-2026" "1st")) [] [].


(** A controller of room 203, its heartbeat, and a staff command. *)
Definition controller : ESP32Device.t :=
  ESP32Device.mk 1 "ESP32-1" "AA:BB:CC" (Some 1) None None true "v1.0" 0 0.

Definition db_dev : Db.t :=
  Db.mk [room203] [card] [window] []
        (Some (SystemSettings.mk "2025-2026" "1st")) [] [controller].

Definition beat (firmware_version : option string)
  : views.HeartbeatRequest.t :=
  views.HeartbeatRequest.mk (Some "AA:BB:CC") firmware_version None None
    views.BodyEmpty None (Some "10.0.0.7").


(** A reader of timestamps that knows the epoch and the minute after. *)
Definition parse_datetime (s : string) : option Z :=
  if String.eqb s "1970-01-01T00:00:00" then Some 0
  else if String.eqb s "1970-01-01T00:01:00" then Some (Clock.at_ 0 0 1)
  else None.

End Scenario.

(** ** Predicates in which the properties are stated *)

Module Spec.

Definition swipe_code (request : views.SwipeRequest.t) : option string :=
  Py.or_ (views.SwipeRequest.GET_code request)
         (views.SwipeRequest.POST_code request).

Definition swipe_room (request : views.SwipeRequest.t) : option string :=
  Py.or_ (views.SwipeRequest.GET_room request)
         (views.SwipeRequest.POST_room request).

(** The swipe names a badge that is the registration [rfid] and a room
    code that is the room [room]. *)
Definition resolves (request : views.SwipeRequest.t) (d : Db.t)
           (rfid : RFIDRegistration.t) (room : Room.t) : Prop :=
  Py.truthy (swipe_code request) = true
  /\ Py.truthy (swipe_room request) = true
  /\ find (fun r => String.eqb (RFIDRegistration.rfid_code r)
                               (views.text (swipe_code request)))
          (Db.rfid_registrations d) = Some rfid
  /\ find (fun r => String.eqb (Room.code r) (views.text (swipe_room request)))
          (Db.rooms d) = Some room.

(** Today's weekday is among the days of the window. *)
Definition names_today (now : Z) (s : RoomSchedule.t) : Prop :=
  views.day_match (views.day_matches (Py.lower (Clock.strftime_A now))) s
  = true.

(** [s] is an active window of the room, the faculty of the credential
    and the semester. *)
Definition window_of (rfid : RFIDRegistration.t) (room : Room.t)
           (semester : string) (s : RoomSchedule.t) : Prop :=
  RoomSchedule.room s = Room.id room
  /\ RoomSchedule.faculty s
     = Some (Faculty.id (RFIDRegistration.faculty rfid))
  /\ RoomSchedule.semester s = semester
  /\ RoomSchedule.is_active s = true.

(** [s] authorises a swipe at [now]: a window of the room, faculty and
    semester that names today and whose hours contain the time of day,
    both ends included. *)
Definition authorizes (now : Z) (rfid : RFIDRegistration.t) (room : Room.t)
           (semester : string) (s : RoomSchedule.t) : Prop :=
  window_of rfid room semester s
  /\ names_today now s
  /\ RoomSchedule.start_time s <= Clock.time now <= RoomSchedule.end_time s.







End Spec.

(** ** Further handlers and model methods *)

(** *** models.py: methods of RoomSchedule and ESP32Device *)

Module models.

(** [strftime("%a")] *)
Definition strftime_a (now : Z) : string :=
  match Clock.weekday_of now with
  | Clock.Monday => "Mon"
  | Clock.Tuesday => "Tue"
  | Clock.Wednesday => "Wed"
  | Clock.Thursday => "Thu"
  | Clock.Friday => "Fri"
  | Clock.Saturday => "Sat"
  | Clock.Sunday => "Sun"
  end.

(** [RoomSchedule.get_days_list] *)
Definition get_days_list (self : RoomSchedule.t) : list string :=
  if negb (String.eqb (RoomSchedule.day_of_week self) "")
  then Py.split "," (RoomSchedule.day_of_week self)
  else [].

(** [RoomSchedule.is_schedule_active_now], with the local clock reading
    as [now]. *)
Definition is_schedule_active_now (now : Z) (self : RoomSchedule.t) : bool :=
  let current_day_full := Py.lower (Clock.strftime_A now) in
  let current_day_short := Py.lower (strftime_a now) in
  let current_time := Clock.time now in
  if negb (RoomSchedule.is_active self) then false
  else
    let days := map (fun d => Py.lower (Py.strip d)) (get_days_list self) in
    let day_match :=
      Py.contains current_day_full days || Py.contains current_day_short days in
    day_match
    && ((RoomSchedule.start_time self <=? current_time)
        && (current_time <=? RoomSchedule.end_time self)).

(** [RoomSchedule.can_access_now]; two faculty rows are equal when their
    primary keys are. *)
Definition can_access_now (now : Z) (self : RoomSchedule.t)
           (faculty : Faculty.t) : bool :=
  if negb (RoomSchedule.is_active self) then false
  else if negb (is_schedule_active_now now self) then false
  else Db.option_Z_eqb (RoomSchedule.faculty self) (Some (Faculty.id faculty)).


End models.

(** *** Ordering of query results *)

Module OrderBy.

(** Stable insertion sort by a "comes strictly before" test: the rows in
    the order [order_by] gives, rows that compare equal keeping their
    storage order. *)
Fixpoint insert {A : Type} (before : A -> A -> bool) (x : A) (l : list A)
  : list A :=
  match l with
  | [] => [x]
  | y :: r => if before y x then y :: insert before x r else x :: l
  end.

Fixpoint sort {A : Type} (before : A -> A -> bool) (l : list A) : list A :=
  match l with
  | [] => []
  | x :: r => insert before x (sort before r)
  end.

(** [order_by('day_of_week', 'start_time')], texts compared character by
    character. *)
Definition day_then_start (a b : RoomSchedule.t) : bool :=
  match String.compare (RoomSchedule.day_of_week a)
                       (RoomSchedule.day_of_week b) with
  | Lt => true
  | Gt => false
  | Eq => RoomSchedule.start_time a <? RoomSchedule.start_time b
  end.


End OrderBy.

(** *** views_api.py: esp32_get_schedules *)

Module schedule_download.

Module ScheduleEntry.
Record t := mk {
  id : Z;
  day : string;
  start_time : string;
  end_time : string;
  subject : string;
  faculty_name : string;
  faculty_rfids : list string;
  instructor_display : string
}.
End ScheduleEntry.

Module DownloadResponse.
Record t := mk {
  http_status : Z;
  status : string;
  message : string;
  room_code : option string;
  semester : option string;
  academic_year : option string;
  schedule_count : Z;
  schedules : list ScheduleEntry.t;
  last_updated : option Z;
  day_of_week : option string
}.

Definition error (http : Z) (message : string) : t :=
  mk http "error" message None None None 0 [] None None.
End DownloadResponse.

(** [t.strftime("%H:%M")] on a time of day. *)
Definition strftime_H_M (t : Z) : string :=
  (Clock.two_digits (t / Clock.usec_per_hour) ++ ":"
     ++ Clock.two_digits ((t mod Clock.usec_per_hour) / Clock.usec_per_minute))%string.

(** The active schedule rows of the room in the semester, ordered by days
    text and start time. *)
Definition room_schedules (d : Db.t) (room : Room.t) (current_semester : string)
  : list RoomSchedule.t :=
  OrderBy.sort OrderBy.day_then_start
    (filter
       (fun s =>
          (RoomSchedule.room s =? Room.id room)
          && String.eqb (RoomSchedule.semester s) current_semester
          && RoomSchedule.is_active s)
       (Db.room_schedules d)).

(** [faculty_rfids]: the codes of the active cards of the faculty of the
    schedule registered for the room; none when no faculty is assigned. *)
Definition faculty_rfids (d : Db.t) (room : Room.t) (schedule : RoomSchedule.t)
  : list string :=
  match RoomSchedule.faculty schedule with
  | None => []
  | Some f =>
      map RFIDRegistration.rfid_code
          (filter
             (fun r =>
                (Faculty.id (RFIDRegistration.faculty r) =? f)
                && (RFIDRegistration.room r =? Room.id room)
                && RFIDRegistration.is_active r)
             (Db.rfid_registrations d))
  end.

(** [schedule.faculty.full_name if schedule.faculty else ""], the faculty
    row read from the faculty table. *)
Definition faculty_name (faculties : list Faculty.t) (schedule : RoomSchedule.t)
  : string :=
  match RoomSchedule.faculty schedule with
  | None => ""
  | Some f =>
      match find (fun x => Faculty.id x =? f) faculties with
      | Some x => Faculty.full_name x
      | None => ""
      end
  end.

(** One entry per stored day of the schedule. *)
Definition entries (faculties : list Faculty.t) (d : Db.t) (room : Room.t)
           (schedule : RoomSchedule.t) : list ScheduleEntry.t :=
  let days := views.days_list schedule in
  let rfids := faculty_rfids d room schedule in
  map (fun day =>
         ScheduleEntry.mk (RoomSchedule.id schedule) day
           (strftime_H_M (RoomSchedule.start_time schedule))
           (strftime_H_M (RoomSchedule.end_time schedule))
           (RoomSchedule.subject schedule)
           (faculty_name faculties schedule) rfids
           (RoomSchedule.instructor_name schedule))
      days.

(** The handler on a GET or POST request.  [faculties] is the faculty
    table; [now] is the reading of [timezone.now()].  The [server_time]
    text of the response renders the same reading as [last_updated] and is
    not carried separately. *)
Definition esp32_get_schedules (faculties : list Faculty.t) (now : Z)
           (GET_room POST_room : option string) (d : Db.t)
  : Db.t * DownloadResponse.t :=
  let room_code := Py.or_ GET_room POST_room in
  if negb (Py.truthy room_code) then
    (d, DownloadResponse.error 400 "Missing 'room' parameter")
  else
    match find (fun r => String.eqb (Room.code r) (views.text room_code)
                         && Room.is_active r)
               (Db.rooms d) with
    | None =>
        (d, DownloadResponse.error 404
              ("Room " ++ views.text room_code ++ " not found or inactive")%string)
    | Some room =>
        let '(d1, system_settings) := Db.get_current_term d in
        let current_semester :=
          SystemSettings.current_semester system_settings in
        let current_ay :=
          SystemSettings.current_academic_year system_settings in
        let schedule_list :=
          flat_map (entries faculties d1 room)
                   (room_schedules d1 room current_semester) in
        (d1,
         DownloadResponse.mk 200 "success" "" room_code (Some current_semester)
           (Some current_ay) (Z.of_nat (List.length schedule_list))
           schedule_list (Some now)
           (Some (Py.lower (Clock.strftime_A now))))
    end.

End schedule_download.

(** *** views_management.py: status toggles, deletions, device status *)

Module management.

Definition with_rooms (rs : list Room.t) (d : Db.t) : Db.t :=
  Db.mk rs (Db.rfid_registrations d) (Db.room_schedules d)
        (Db.transaction_logs d) (Db.system_settings d)
        (Db.manual_door_logs d) (Db.esp32_devices d).

Definition with_room_schedules (ss : list RoomSchedule.t) (d : Db.t) : Db.t :=
  Db.mk (Db.rooms d) (Db.rfid_registrations d) ss
        (Db.transaction_logs d) (Db.system_settings d)
        (Db.manual_door_logs d) (Db.esp32_devices d).

(** What a toggle reports: the row is missing (a 404 page), or the new
    state of the flag. *)
Inductive toggled :=
| NotFound
| Activated
| Deactivated.

Definition report (is_active : bool) : toggled :=
  if is_active then Activated else Deactivated.

(** [room_toggle_status] *)
Definition room_toggle_status (room_id : Z) (d : Db.t) : Db.t * toggled :=
  match find (fun r => Room.id r =? room_id) (Db.rooms d) with
  | None => (d, NotFound)
  | Some room =>
      let room :=
        Room.mk (Room.id room) (Room.code room) (Room.description room)
                (negb (Room.is_active room)) in
      (with_rooms
         (map (fun r => if Room.id r =? Room.id room then room else r)
              (Db.rooms d))
         d,
       report (Room.is_active room))
  end.

(** [schedule_toggle_status]; [updated_at] is [auto_now]. *)
Definition schedule_toggle_status (now : Z) (schedule_id : Z) (d : Db.t)
  : Db.t * toggled :=
  match find (fun s => RoomSchedule.id s =? schedule_id) (Db.room_schedules d) with
  | None => (d, NotFound)
  | Some schedule =>
      let schedule :=
        RoomSchedule.mk (RoomSchedule.id schedule) (RoomSchedule.room schedule)
          (RoomSchedule.semester schedule) (RoomSchedule.day_of_week schedule)
          (RoomSchedule.start_time schedule) (RoomSchedule.end_time schedule)
          (RoomSchedule.subject schedule)
          (RoomSchedule.instructor_name schedule)
          (RoomSchedule.faculty schedule)
          (negb (RoomSchedule.is_active schedule)) now in
      (with_room_schedules
         (map (fun s => if RoomSchedule.id s =? RoomSchedule.id schedule
                        then schedule else s)
              (Db.room_schedules d))
         d,
       report (RoomSchedule.is_active schedule))
  end.

(** [esp32_toggle_status] *)
Definition esp32_toggle_status (now : Z) (device_id : Z) (d : Db.t)
  : Db.t * toggled :=
  match find (fun r => ESP32Device.id r =? device_id) (Db.esp32_devices d) with
  | None => (d, NotFound)
  | Some device =>
      let device :=
        ESP32Device.mk (ESP32Device.id device) (ESP32Device.device_name device)
          (ESP32Device.device_id device) (ESP32Device.room device)
          (ESP32Device.ip_address device) (ESP32Device.last_heartbeat device)
          (negb (ESP32Device.is_active device))
          (ESP32Device.firmware_version device)
          (ESP32Device.created_at device) (ESP32Device.updated_at device) in
      (views.save_device now device d, report (ESP32Device.is_active device))
  end.



(** What [manual_door_log_delete] reports. *)
Inductive log_deletion :=
| NothingDone
| NoLogsSelected
| LogsDeleted (deleted_count : Z)
| NoLogsDeleted.

(** [manual_door_log_delete]; [log_ids] are the selected primary keys. *)
Definition manual_door_log_delete (method : string) (log_ids : list Z)
           (d : Db.t) : Db.t * log_deletion :=
  if String.eqb method "POST" then
    match log_ids with
    | [] => (d, NoLogsSelected)
    | _ =>
        let selected m := existsb (Z.eqb (ManualDoorLog.id m)) log_ids in
        let deleted_count :=
          Z.of_nat (List.length (filter selected (Db.manual_door_logs d))) in
        (Db.with_manual_door_logs
           (filter (fun m => negb (selected m)) (Db.manual_door_logs d)) d,
         if 0 <? deleted_count then LogsDeleted deleted_count
         else NoLogsDeleted)
    end
  else (d, NothingDone).

Module DeviceStatus.
Record t := mk {
  id : Z;
  name : string;
  room : string;
  is_online : bool;
  status : string;
  color : string;
  last_seen : option Z;
  schedule_count : Z
}.
End DeviceStatus.

Module StatusResponse.
Record t := mk {
  devices : list DeviceStatus.t;
  online_count : Z;
  total_count : Z
}.
End StatusResponse.




End management.

(** *** admin.py: bulk deletions of transaction rows *)

Module admin.

(** [timedelta(days=180)] *)
Definition six_months : Z := 180 * Clock.usec_per_day.

(** [delete_denied_logs]: the rows deleted and the ledger left. *)
Definition delete_denied_logs (d : Db.t) : Db.t * Z :=
  let denied_logs :=
    filter (fun l => negb (TransactionLog.access_granted l))
           (Db.transaction_logs d) in
  (Db.with_transaction_logs
     (filter TransactionLog.access_granted (Db.transaction_logs d)) d,
   Z.of_nat (List.length denied_logs)).

(** Filter of [open_time__lt]: a row without open time never matches. *)
Definition opened_before (t : Z) (l : TransactionLog.t) : bool :=
  match TransactionLog.open_time l with
  | Some o => o <? t
  | None => false
  end.

(** [delete_old_logs] *)
Definition delete_old_logs (now : Z) (d : Db.t) : Db.t * Z :=
  let six_months_ago := now - six_months in
  let old_logs := filter (opened_before six_months_ago) (Db.transaction_logs d) in
  (Db.with_transaction_logs
     (filter (fun l => negb (opened_before six_months_ago l))
             (Db.transaction_logs d)) d,
   Z.of_nat (List.length old_logs)).

End admin.

(** *** forms.py: RoomScheduleForm *)

Module forms.

(** [','.join(xs)] *)
Fixpoint join_comma (xs : list string) : string :=
  match xs with
  | [] => ""
  | [x] => x
  | x :: r => (x ++ "," ++ join_comma r)%string
  end.

(** The values the days field accepts. *)
Definition day_choices : list string :=
  ["monday"; "tuesday"; "wednesday"; "thursday"; "friday"; "saturday";
   "sunday"].

(** [clean_day_of_week]: [None] is the validation error. *)
Definition clean_day_of_week (days : list string) : option string :=
  match days with
  | [] => None
  | _ => Some (join_comma (map Py.lower days))
  end.

(** [clean]: [false] when the form is rejected because the end is not
    after the start. *)
Definition clean (start_time end_time : option Z) : bool :=
  match start_time, end_time with
  | Some s, Some e => negb (e <=? s)
  | _, _ => true
  end.

End forms.

(** *** Frames *)

Module Frame.

(** Two databases hold the same rows in every table; the term settings
    row is not compared. *)
Definition same_rows (a b : Db.t) : Prop :=
  Db.rooms a = Db.rooms b
  /\ Db.rfid_registrations a = Db.rfid_registrations b
  /\ Db.room_schedules a = Db.room_schedules b
  /\ Db.transaction_logs a = Db.transaction_logs b
  /\ Db.manual_door_logs a = Db.manual_door_logs b
  /\ Db.esp32_devices a = Db.esp32_devices b.

End Frame.

(** * Properties *)

(** ** Device liveness *)

(** C6: a device is online exactly when a last heartbeat is recorded and
    the clock reading is at most 30 seconds past it; the bound is
    inclusive (online at 30 s, offline at 31 s) and a device without a
    recorded heartbeat is offline. *)
Theorem C6_is_online_within_30_seconds :
  forall (now : Z) (device : ESP32Device.t),
    (ESP32Device.is_online now device = true <->
     exists hb, ESP32Device.last_heartbeat device = Some hb
                /\ now - hb <= Clock.timedelta_seconds 30)
    /\ (forall ip,
           ESP32Device.is_online (now + Clock.timedelta_seconds 29)
             (views.with_heartbeat now ip device) = true
           /\ ESP32Device.is_online (now + Clock.timedelta_seconds 30)
                (views.with_heartbeat now ip device) = true
           /\ ESP32Device.is_online (now + Clock.timedelta_seconds 31)
                (views.with_heartbeat now ip device) = false)
    /\ (ESP32Device.is_online now device = false <->
        ESP32Device.last_heartbeat device = None
        \/ exists hb, ESP32Device.last_heartbeat device = Some hb
                      /\ now - hb > Clock.timedelta_seconds 30).
Proof.
  intros now device.
  unfold ESP32Device.is_online, Clock.timedelta_seconds, Clock.usec_per_second.
  repeat split.
  - destruct (ESP32Device.last_heartbeat device) as [hb|]; [|discriminate].
    intros H. apply Z.leb_le in H. exists hb. split; [reflexivity|lia].
  - intros [hb [-> H]]. apply Z.leb_le. lia.
  - simpl. apply Z.leb_le. lia.
  - simpl. apply Z.leb_le. lia.
  - simpl. apply Z.leb_gt. lia.
  - destruct (ESP32Device.last_heartbeat device) as [hb|]; [|now left].
    intros H. apply Z.leb_gt in H. right. exists hb. split; [reflexivity|lia].
  - intros [-> | [hb [-> H]]]; [reflexivity|]. apply Z.leb_gt. lia.
Qed.

(** ** Auxiliary facts about the ORM calls *)

Section OrmFacts.

Lemma option_Z_eqb_Some (a : option Z) (x : Z) :
  Db.option_Z_eqb a (Some x) = true <-> a = Some x.
Proof.
  destruct a as [y|]; simpl; split; intros H; try discriminate.
  - apply Z.eqb_eq in H. now subst.
  - injection H as ->. apply Z.eqb_refl.
Qed.

Lemma isnull_true {A : Type} (o : option A) :
  Db.isnull o = true <-> o = None.
Proof. destruct o; simpl; split; intros H; congruence. Qed.

Lemma get_current_term_tables (d : Db.t) :
  let d1 := fst (Db.get_current_term d) in
  Db.rooms d1 = Db.rooms d
  /\ Db.rfid_registrations d1 = Db.rfid_registrations d
  /\ Db.room_schedules d1 = Db.room_schedules d
  /\ Db.transaction_logs d1 = Db.transaction_logs d
  /\ Db.manual_door_logs d1 = Db.manual_door_logs d
  /\ Db.esp32_devices d1 = Db.esp32_devices d.
Proof.
  unfold Db.get_current_term.
  destruct (Db.system_settings d); simpl; repeat split; reflexivity.
Qed.

Lemma get_current_term_pair (d : Db.t) :
  Db.get_current_term d = (fst (Db.get_current_term d), Db.current_term d).
Proof. unfold Db.current_term. now destruct (Db.get_current_term d). Qed.


Lemma first_by_open_time_desc_None ls :
  Db.first_by_open_time_desc ls = None <-> ls = [].
Proof.
  split; [|now intros ->].
  destruct ls as [|a r]; simpl; [reflexivity|].
  destruct (Db.first_by_open_time_desc r) as [m|];
    [destruct (Db.open_time_ltb a m)|]; discriminate.
Qed.

Lemma first_by_timestamp_desc_In ls l :
  Db.first_by_timestamp_desc ls = Some l -> In l ls.
Proof.
  revert l. induction ls as [|a r IH]; simpl; intros l H; [discriminate|].
  destruct (Db.first_by_timestamp_desc r) as [m|].
  - destruct (ManualDoorLog.timestamp a <? ManualDoorLog.timestamp m);
      injection H as <-; auto.
  - injection H as <-. now left.
Qed.

Lemma first_by_timestamp_desc_None ls :
  Db.first_by_timestamp_desc ls = None <-> ls = [].
Proof.
  split; [|now intros ->].
  destruct ls as [|a r]; simpl; [reflexivity|].
  destruct (Db.first_by_timestamp_desc r) as [m|];
    [destruct (ManualDoorLog.timestamp a <? ManualDoorLog.timestamp m)|];
    discriminate.
Qed.

Lemma length_pos_iff {A : Type} (l : list A) :
  (0 <? Z.of_nat (List.length l)) = true <-> l <> [].
Proof.
  destruct l as [|a r]; split; intros H; try congruence.
  - discriminate.
  - apply Z.ltb_lt. simpl List.length. lia.
Qed.

Lemma nonempty_has_member {A : Type} (l : list A) :
  l <> [] <-> exists x, In x l.
Proof.
  destruct l as [|a r]; split.
  - congruence.
  - intros [x []].
  - intros _. exists a. now left.
  - discriminate.
Qed.

End OrmFacts.

(** ** The schedule decision *)

Section Decision.

Variables (now : Z) (d : Db.t) (rfid : RFIDRegistration.t) (room : Room.t)
          (semester : string).

Lemma matching_schedules_In s :
  In s (views.matching_schedules d room rfid semester) <->
  In s (Db.room_schedules d) /\ Spec.window_of rfid room semester s.
Proof.
  unfold views.matching_schedules, Spec.window_of.
  rewrite filter_In, !andb_true_iff, Z.eqb_eq, option_Z_eqb_Some,
    String.eqb_eq.
  tauto.
Qed.

Lemma time_match_iff s :
  views.time_match (Clock.time now) s = true <->
  RoomSchedule.start_time s <= Clock.time now <= RoomSchedule.end_time s.
Proof.
  unfold views.time_match. rewrite andb_true_iff, !Z.leb_le. tauto.
Qed.

Lemma decide_granted_iff :
  fst (fst (views.decide now d rfid room semester)) = true <->
  exists s, In s (Db.room_schedules d)
            /\ Spec.authorizes now rfid room semester s.
Proof.
  unfold views.decide. simpl.
  rewrite length_pos_iff, nonempty_has_member.
  unfold views.matching_schedules_filtered, Spec.authorizes.
  split; intros [s H]; exists s; revert H;
    rewrite filter_In, matching_schedules_In, andb_true_iff, time_match_iff;
    unfold Spec.names_today; tauto.
Qed.


Lemma decide_denial_reason :
  fst (fst (views.decide now d rfid room semester)) = false ->
  snd (fst (views.decide now d rfid room semester)) =
  Some (if views.day_only_match
             (views.day_matches (Py.lower (Clock.strftime_A now)))
             (views.matching_schedules d room rfid semester)
        then views.outside_of_scheduled_time (Clock.time now)
        else views.no_schedule_for (Py.lower (Clock.strftime_A now))
                                   semester).
Proof.
  unfold views.decide. simpl. intros ->.
  now destruct (views.day_only_match _ _).
Qed.



End Decision.

(** ** Today's name among the stored days *)

Section DayNames.

(** No upper-case letter survives [lower]. *)
Lemma lower_char_not_upper (c : ascii) :
  let n := nat_of_ascii (Py.lower_char c) in
  ((65 <=? n) && (n <=? 90))%nat = false.
Proof.
  destruct c as [[] [] [] [] [] [] [] []]; reflexivity.
Qed.

Lemma capital_not_lowered (c : ascii) (r x : string) :
  ((65 <=? nat_of_ascii c) && (nat_of_ascii c <=? 90))%nat = true ->
  String.eqb (String c r) (Py.lower x) = false.
Proof.
  intros Hc. destruct x as [|c' x]; [reflexivity|].
  cbn [Py.lower String.eqb].
  destruct (Ascii.eqb_spec c (Py.lower_char c')) as [E|E]; [|reflexivity].
  pose proof (lower_char_not_upper c') as H. cbv zeta in H.
  rewrite <- E, Hc in H. discriminate.
Qed.

Lemma capital_not_in_days_list (c : ascii) (r : string) (s : RoomSchedule.t) :
  ((65 <=? nat_of_ascii c) && (nat_of_ascii c <=? 90))%nat = true ->
  Py.contains (String c r) (views.days_list s) = false.
Proof.
  intros Hc. unfold Py.contains, views.days_list.
  induction (Py.split "," (RoomSchedule.day_of_week s)) as [|a l IH];
    [reflexivity|].
  cbn [map existsb]. now rewrite capital_not_lowered, IH.
Qed.

(** A window names today exactly when the lower-case name of the weekday,
    or its first three letters, is one of the comma-separated days of the
    window, trimmed and lowered; the capitalised name never is. *)
Lemma names_today_iff (now : Z) (s : RoomSchedule.t) :
  Spec.names_today now s <->
  Py.contains (Py.lower (Clock.strftime_A now)) (views.days_list s) = true
  \/ Py.contains (Py.prefix 3 (Py.lower (Clock.strftime_A now)))
                 (views.days_list s) = true.
Proof.
  unfold Spec.names_today, views.day_match, views.day_matches.
  cbn [existsb].
  assert (Hcap : Py.contains (Py.capitalize (Py.lower (Clock.strftime_A now)))
                             (views.days_list s) = false).
  { unfold Clock.strftime_A.
    destruct (Clock.weekday_of now);
      apply capital_not_in_days_list; reflexivity. }
  rewrite Hcap, !orb_false_r, orb_true_iff. tauto.
Qed.

End DayNames.

(** ** The swipe handler *)

Section Swipe.

Variables (now : Z) (request : views.SwipeRequest.t) (d : Db.t)
          (rfid : RFIDRegistration.t) (room : Room.t).
Hypothesis Hres : Spec.resolves request d rfid room.

Let term := Db.current_term d.
Let semester := SystemSettings.current_semester term.
Let academic_year := SystemSettings.current_academic_year term.
Let d1 := fst (Db.get_current_term d).
Let decision := views.decide now d1 rfid room semester.
Let outcome :=
  views.record_attempt now d1 rfid room academic_year semester decision.

(** With an active credential and an active room the handler is the
    schedule decision followed by the ledger update. *)
Lemma rfid_swipe_active :
  RFIDRegistration.is_active rfid = true ->
  Room.is_active room = true ->
  views.rfid_swipe now request d =
  (fst (fst outcome),
   views.SwipeResponse.mk 200
     (if fst (fst decision) then "ok" else "error")
     (fst (fst decision)) (snd (fst outcome))
     (Faculty.full_name (RFIDRegistration.faculty rfid)) (snd outcome)
     (if fst (fst decision) then "" else views.text (snd (fst decision)))).
Proof.
  intros Ha Hb. destruct Hres as (Hc & Hr & Hf & Hg).
  unfold Spec.swipe_code, Spec.swipe_room in *.
  unfold views.rfid_swipe. rewrite Hc, Hr. simpl negb. simpl orb. cbv iota.
  rewrite Hf, Ha. simpl negb. cbv iota. rewrite Hg, Hb. simpl negb. cbv iota.
  rewrite (get_current_term_pair d). cbv beta iota zeta.
  subst outcome decision d1 academic_year semester term.
  destruct (views.decide _ _ _ _ _) as [[g r] a].
  destruct (views.record_attempt _ _ _ _ _ _ _) as [[d2 act] msg].
  reflexivity.
Qed.

(** An inactive credential is refused before anything is read or
    written. *)
Lemma rfid_swipe_inactive_card :
  RFIDRegistration.is_active rfid = false ->
  views.rfid_swipe now request d =
  (d, views.SwipeResponse.error 403
        (Faculty.full_name (RFIDRegistration.faculty rfid))
        "RFID card is disabled" "This card has been deactivated").
Proof.
  intros Ha. destruct Hres as (Hc & Hr & Hf & Hg).
  unfold Spec.swipe_code, Spec.swipe_room in *.
  unfold views.rfid_swipe. rewrite Hc, Hr. simpl negb. simpl orb. cbv iota.
  rewrite Hf, Ha. reflexivity.
Qed.

(** An inactive room is refused likewise. *)
Lemma rfid_swipe_inactive_room :
  RFIDRegistration.is_active rfid = true ->
  Room.is_active room = false ->
  fst (views.rfid_swipe now request d) = d
  /\ views.SwipeResponse.access_granted (snd (views.rfid_swipe now request d))
     = false
  /\ views.SwipeResponse.http_status (snd (views.rfid_swipe now request d))
     = 403.
Proof.
  intros Ha Hb. destruct Hres as (Hc & Hr & Hf & Hg).
  unfold Spec.swipe_code, Spec.swipe_room in *.
  unfold views.rfid_swipe. rewrite Hc, Hr. simpl negb. simpl orb. cbv iota.
  rewrite Hf, Ha. simpl negb. cbv iota. rewrite Hg, Hb.
  repeat split.
Qed.

End Swipe.

(** ** Access decision *)



(** The two-day window of the specification: granted on Monday and on
    Wednesday within hours and at the closing minute, denied on Tuesday
    for want of a schedule, denied on Monday one minute after the end as
    outside the scheduled time. *)
Example two_day_window_decisions :
  let answer now :=
    let r := snd (views.rfid_swipe now Scenario.swipe Scenario.db_mw) in
    (views.SwipeResponse.access_granted r, views.SwipeResponse.denial_reason r)
  in
  answer Scenario.monday_0830 = (true, "")
  /\ answer Scenario.wednesday_0830 = (true, "")
  /\ answer Scenario.monday_1000 = (true, "")
  /\ answer Scenario.tuesday_0830
     = (false, "No schedule for Tuesday in 1st semester")
  /\ answer Scenario.monday_1001
     = (false, "Outside of scheduled time (Current: 10:01 AM)").
Proof. repeat split; reflexivity. Qed.

(** ** The ledger update *)

Section RecordAttempt.

Variables (now : Z) (d : Db.t) (rfid : RFIDRegistration.t) (room : Room.t)
          (academic_year semester : string).

Let key_open :=
  views.is_open_log (RFIDRegistration.id rfid) (Room.id room)
                    academic_year semester.

Lemma open_log_None_iff :
  views.open_log d rfid room academic_year semester = None <->
  forall l, In l (Db.transaction_logs d) -> key_open l = false.
Proof.
  unfold views.open_log, views.open_logs.
  rewrite first_by_open_time_desc_None. fold key_open. split.
  - intros E l Hl. destruct (key_open l) eqn:K; [|reflexivity].
    assert (In l (filter key_open (Db.transaction_logs d)))
      by (apply filter_In; auto).
    rewrite E in H. destruct H.
  - intros H. destruct (filter key_open (Db.transaction_logs d)) as [|l r] eqn:E;
      [reflexivity|].
    assert (Hin : In l (filter key_open (Db.transaction_logs d)))
      by (rewrite E; now left).
    apply filter_In in Hin. destruct Hin as [Hl K].
    rewrite (H l Hl) in K. discriminate.
Qed.


(** A denial inserts one row and touches no other. *)
Lemma record_attempt_denied reason schedule :
  views.record_attempt now d rfid room academic_year semester
                       (false, reason, schedule) =
  (Db.with_transaction_logs
     (Db.transaction_logs d ++
      [TransactionLog.mk
         (Db.next_id (map TransactionLog.id (Db.transaction_logs d)))
         (Some (RFIDRegistration.id rfid)) (Some (Room.id room)) "" "" ""
         academic_year semester (Some now) None false reason None]) d,
   "", ("Access denied: " ++ views.text reason)%string).
Proof. reflexivity. Qed.

(** A grant with no open row inserts one open row. *)
Lemma record_attempt_borrow reason schedule :
  views.open_log d rfid room academic_year semester = None ->
  views.record_attempt now d rfid room academic_year semester
                       (true, reason, schedule) =
  (Db.with_transaction_logs
     (Db.transaction_logs d ++
      [TransactionLog.mk
         (Db.next_id (map TransactionLog.id (Db.transaction_logs d)))
         (Some (RFIDRegistration.id rfid)) (Some (Room.id room)) "" "" ""
         academic_year semester (Some now) None true None
         (option_map RoomSchedule.id schedule)]) d,
   "borrow_key", "Access granted - Key released").
Proof. intros H. unfold views.record_attempt. now rewrite H. Qed.

(** A grant with an open row rewrites the rows of its primary key. *)
Lemma record_attempt_return reason schedule l :
  views.open_log d rfid room academic_year semester = Some l ->
  views.record_attempt now d rfid room academic_year semester
                       (true, reason, schedule) =
  (Db.save_transaction_log (TransactionLog.with_close_time (Some now) l) d,
   "return_key", "Key returned successfully").
Proof. intros H. unfold views.record_attempt. now rewrite H. Qed.

End RecordAttempt.


Lemma reason_nonempty (now : Z) (d : Db.t) (rfid : RFIDRegistration.t)
      (room : Room.t) (semester : string) :
  fst (fst (views.decide now d rfid room semester)) = false ->
  exists reason,
    snd (fst (views.decide now d rfid room semester)) = Some reason
    /\ reason <> "".
Proof.
  intros H. rewrite (decide_denial_reason _ _ _ _ _ H).
  eexists. split; [reflexivity|].
  destruct (views.day_only_match _ _);
    unfold views.outside_of_scheduled_time, views.no_schedule_for;
    simpl; discriminate.
Qed.


Lemma logs_after_save inst (d : Db.t) :
  Db.transaction_logs (Db.save_transaction_log inst d)
  = map (fun r => if TransactionLog.id r =? TransactionLog.id inst
                  then inst else r)
        (Db.transaction_logs d).
Proof. reflexivity. Qed.

(** ** Borrow and return *)



(** ** Denials *)

(** C3 at a deactivated card: the badge and the room resolve, the swipe
    is denied with status 403, and the ledger is left as it was (empty):
    no denied row is inserted. *)
Lemma C3_counterexample_inactive_card_writes_nothing :
  Spec.resolves Scenario.swipe Scenario.db_card_off Scenario.card_off
                Scenario.room203
  /\ views.SwipeResponse.access_granted
       (snd (views.rfid_swipe Scenario.monday_0830 Scenario.swipe
                              Scenario.db_card_off)) = false
  /\ views.SwipeResponse.http_status
       (snd (views.rfid_swipe Scenario.monday_0830 Scenario.swipe
                              Scenario.db_card_off)) = 403
  /\ Db.transaction_logs Scenario.db_card_off = []
  /\ Db.transaction_logs
       (fst (views.rfid_swipe Scenario.monday_0830 Scenario.swipe
                              Scenario.db_card_off)) = [].
Proof. repeat split; reflexivity. Qed.

(** C3, amended: when the badge resolves to an active credential and the
    room to an active room, a denied swipe (no window names today, or the
    time is outside the window) inserts exactly one row, not granted, not
    closed, with a non-empty denial reason; a swipe with an inactive
    credential or an inactive room is denied and writes nothing. *)
Theorem C3_schedule_denial_logged_inactive_refused :
  forall (now : Z) (request : views.SwipeRequest.t) (d : Db.t)
         (rfid : RFIDRegistration.t) (room : Room.t),
    Spec.resolves request d rfid room ->
    let response := snd (views.rfid_swipe now request d) in
    let logs := Db.transaction_logs d in
    let logs' := Db.transaction_logs (fst (views.rfid_swipe now request d)) in
    (RFIDRegistration.is_active rfid = true ->
     Room.is_active room = true ->
     views.SwipeResponse.access_granted response = false ->
     exists (new : TransactionLog.t) (reason : string),
       logs' = (logs ++ [new])%list
       /\ TransactionLog.access_granted new = false
       /\ TransactionLog.close_time new = None
       /\ TransactionLog.denial_reason new = Some reason
       /\ reason <> ""
       /\ views.SwipeResponse.denial_reason response = reason
       /\ TransactionLog.open_time new = Some now
       /\ TransactionLog.rfid new = Some (RFIDRegistration.id rfid)
       /\ TransactionLog.room new = Some (Room.id room))
    /\ (RFIDRegistration.is_active rfid = false
        \/ Room.is_active room = false ->
        views.SwipeResponse.access_granted response = false
        /\ views.SwipeResponse.http_status response = 403
        /\ fst (views.rfid_swipe now request d) = d).
Proof.
  intros now request d rfid room Hres response logs logs'.
  subst response logs logs'. split.
  - intros Ha Hb.
    rewrite (rfid_swipe_active now request d rfid room Hres Ha Hb).
    cbn [fst snd views.SwipeResponse.access_granted
         views.SwipeResponse.denial_reason].
    intros Hden.
    destruct (reason_nonempty _ _ _ _ _ Hden) as (reason & Hr & Hne).
    destruct (get_current_term_tables d) as (_ & _ & _ & Hlogs & _).
    destruct (views.decide now (fst (Db.get_current_term d)) rfid room
                (SystemSettings.current_semester (Db.current_term d)))
      as [[g r] sched].
    cbn [fst snd] in Hden, Hr |- *. subst g r.
    rewrite record_attempt_denied.
    cbn [fst snd Db.transaction_logs Db.with_transaction_logs views.text].
    rewrite Hlogs. eexists. exists reason.
    split; [reflexivity|]. repeat split. exact Hne.
  - intros [Ha | Hb].
    + rewrite (rfid_swipe_inactive_card now request d rfid room Hres Ha).
      repeat split.
    + destruct (RFIDRegistration.is_active rfid) eqn:Ha.
      * destruct (rfid_swipe_inactive_room now request d rfid room Hres Ha Hb)
          as (H1 & H2 & H3).
        repeat split; assumption.
      * rewrite (rfid_swipe_inactive_card now request d rfid room Hres Ha).
        repeat split.
Qed.

Lemma C3_witness_tuesday_denial_logged :
  Spec.resolves Scenario.swipe Scenario.db0 Scenario.card Scenario.room203
  /\ exists (new : TransactionLog.t) (reason : string),
      Db.transaction_logs
        (fst (views.rfid_swipe Scenario.tuesday_0830 Scenario.swipe
                               Scenario.db0)) = [new]
      /\ TransactionLog.access_granted new = false
      /\ TransactionLog.denial_reason new = Some reason
      /\ reason <> "".
Proof.
  assert (Hres : Spec.resolves Scenario.swipe Scenario.db0 Scenario.card
                               Scenario.room203)
    by (repeat split; reflexivity).
  split; [exact Hres|].
  destruct (C3_schedule_denial_logged_inactive_refused Scenario.tuesday_0830
              Scenario.swipe Scenario.db0 Scenario.card Scenario.room203 Hres)
    as [Hlog _].
  destruct (Hlog eq_refl eq_refl eq_refl)
    as (new & reason & H1 & H2 & _ & H4 & H5 & _).
  exists new, reason. repeat split; assumption.
Defined.

(** ** The offline-event merge *)

Section OfflineMerge.

Variables (data : views_api.OfflineEvent.t) (d : Db.t)
          (rfid : RFIDRegistration.t) (room : Room.t).
Hypothesis Hrfid :
  views_api.lookup_code RFIDRegistration.rfid_code
    (views_api.OfflineEvent.rfid_code data) (Db.rfid_registrations d)
  = Some rfid.
Hypothesis Hroom :
  views_api.lookup_code Room.code
    (views_api.OfflineEvent.room_code data) (Db.rooms d)
  = Some room.


End OfflineMerge.






(** ** At most one open row per credential, room and term *)

Section OpenCount.

Lemma open_count_app rfid room ay sem logs new :
  Ledger.open_count rfid room ay sem (logs ++ [new]) =
  (Ledger.open_count rfid room ay sem logs
   + if views.is_open_log rfid room ay sem new then 1 else 0)%nat.
Proof.
  unfold Ledger.open_count. rewrite filter_app, length_app. simpl.
  now destruct (views.is_open_log rfid room ay sem new).
Qed.

Lemma open_count_zero rfid room ay sem logs :
  Ledger.open_count rfid room ay sem logs = 0%nat <->
  forall l, In l logs -> views.is_open_log rfid room ay sem l = false.
Proof.
  unfold Ledger.open_count. induction logs as [|a r IH]; simpl.
  - split; [intros _ l []|reflexivity].
  - destruct (views.is_open_log rfid room ay sem a) eqn:E; simpl; split.
    + discriminate.
    + intros H. rewrite (H a) in E by now left. discriminate.
    + intros H l [<-|Hl]; [exact E|]. now apply IH.
    + intros H. apply IH. intros l Hl. apply H. now right.
Qed.

(** A row is open for one key only. *)
Lemma is_open_log_key rfid room ay sem rfid' room' ay' sem' l :
  views.is_open_log rfid room ay sem l = true ->
  views.is_open_log rfid' room' ay' sem' l = true ->
  rfid = rfid' /\ room = room' /\ ay = ay' /\ sem = sem'.
Proof.
  unfold views.is_open_log.
  rewrite !andb_true_iff, !option_Z_eqb_Some, !String.eqb_eq.
  intros (((((H1 & H2) & H3) & H4) & _) & _)
         (((((K1 & K2) & K3) & K4) & _) & _).
  repeat split; congruence.
Qed.

Lemma closed_is_not_open rfid room ay sem t l :
  views.is_open_log rfid room ay sem
    (TransactionLog.with_close_time (Some t) l) = false.
Proof.
  unfold views.is_open_log. simpl.
  now rewrite andb_false_r.
Qed.

Lemma denied_is_not_open rfid room ay sem l :
  TransactionLog.access_granted l = false ->
  views.is_open_log rfid room ay sem l = false.
Proof. unfold views.is_open_log. intros ->. apply andb_false_r. Qed.

(** Appending a row keeps the invariant when the key of the row, if it
    is an open row, had no open row before. *)
Lemma invariant_app logs new :
  Ledger.currently_out_invariant logs ->
  (forall rfid room ay sem,
      views.is_open_log rfid room ay sem new = true ->
      Ledger.open_count rfid room ay sem logs = 0%nat) ->
  Ledger.currently_out_invariant (logs ++ [new]).
Proof.
  intros Hinv Hnew rfid room ay sem. rewrite open_count_app.
  destruct (views.is_open_log rfid room ay sem new) eqn:E.
  - rewrite (Hnew _ _ _ _ E). simpl. lia.
  - specialize (Hinv rfid room ay sem). lia.
Qed.

(** Writing a closed row over stored rows keeps the invariant. *)
Lemma invariant_save_closed logs t l :
  Ledger.currently_out_invariant logs ->
  Ledger.currently_out_invariant
    (map (fun r =>
            if TransactionLog.id r
               =? TransactionLog.id (TransactionLog.with_close_time (Some t) l)
            then TransactionLog.with_close_time (Some t) l else r)
         logs).
Proof.
  intros Hinv rfid room ay sem. specialize (Hinv rfid room ay sem).
  apply Nat.le_trans with (2 := Hinv). clear Hinv.
  unfold Ledger.open_count.
  induction logs as [|a r IH]; [apply Nat.le_refl|].
  cbn [map filter].
  destruct (TransactionLog.id a =? _).
  - rewrite closed_is_not_open.
    destruct (views.is_open_log rfid room ay sem a);
      cbn [List.length]; lia.
  - destruct (views.is_open_log rfid room ay sem a);
      cbn [List.length]; lia.
Qed.

Lemma record_attempt_keeps_invariant now d rfid room ay sem decision :
  Ledger.currently_out_invariant (Db.transaction_logs d) ->
  Ledger.currently_out_invariant
    (Db.transaction_logs
       (fst (fst (views.record_attempt now d rfid room ay sem decision)))).
Proof.
  intros Hinv. destruct decision as [[[|] reason] sched].
  - destruct (views.open_log d rfid room ay sem) as [l|] eqn:E.
    + rewrite (record_attempt_return _ _ _ _ _ _ _ _ _ E).
      cbn [fst]. rewrite logs_after_save.
      now apply invariant_save_closed.
    + rewrite (record_attempt_borrow _ _ _ _ _ _ _ _ E).
      cbn [fst Db.transaction_logs Db.with_transaction_logs].
      apply invariant_app; [exact Hinv|].
      intros rfid' room' ay' sem' Hopen.
      apply open_count_zero. intros l Hl.
      destruct (views.is_open_log rfid' room' ay' sem' l) eqn:K;
        [|reflexivity].
      assert (Hkey : views.is_open_log (RFIDRegistration.id rfid)
                       (Room.id room) ay sem l = true).
      { revert Hopen K. unfold views.is_open_log. simpl.
        rewrite !andb_true_iff, !option_Z_eqb_Some, !String.eqb_eq,
          !Z.eqb_eq.
        intros (((((H1 & H2) & H3) & H4) & _) & _)
               (((((K1 & K2) & K3) & K4) & K5) & K6).
        subst. repeat split; assumption. }
      rewrite open_log_None_iff in E. rewrite (E l Hl) in Hkey.
      discriminate.
  - rewrite record_attempt_denied.
    cbn [fst Db.transaction_logs Db.with_transaction_logs].
    apply invariant_app; [exact Hinv|].
    intros rfid' room' ay' sem' Hopen.
    rewrite denied_is_not_open in Hopen by reflexivity. discriminate.
Qed.

Lemma rfid_swipe_keeps_invariant now request d :
  Ledger.currently_out_invariant (Db.transaction_logs d) ->
  Ledger.currently_out_invariant
    (Db.transaction_logs (fst (views.rfid_swipe now request d))).
Proof.
  intros Hinv. unfold views.rfid_swipe.
  destruct (negb _ || negb _); [exact Hinv|].
  destruct (find _ (Db.rfid_registrations d)) as [rfid|]; [|exact Hinv].
  destruct (negb (RFIDRegistration.is_active rfid)); [exact Hinv|].
  destruct (find _ (Db.rooms d)) as [room|]; [|exact Hinv].
  destruct (negb (Room.is_active room)); [exact Hinv|].
  rewrite (get_current_term_pair d). cbv beta iota zeta.
  destruct (get_current_term_tables d) as (_ & _ & _ & Hlogs & _).
  rewrite <- Hlogs in Hinv.
  pose proof (record_attempt_keeps_invariant now (fst (Db.get_current_term d))
                rfid room
                (SystemSettings.current_academic_year (Db.current_term d))
                (SystemSettings.current_semester (Db.current_term d))
                (views.decide now (fst (Db.get_current_term d)) rfid room
                   (SystemSettings.current_semester (Db.current_term d)))
                Hinv) as H.
  destruct (views.decide _ _ _ _ _) as [[g r] a].
  destruct (views.record_attempt _ _ _ _ _ _ _) as [[d2 act] msg].
  exact H.
Qed.

Lemma set_term_keeps_logs ay sem d :
  Db.transaction_logs (views.dashboard_set_term ay sem d)
  = Db.transaction_logs d.
Proof.
  unfold views.dashboard_set_term, Db.get_current_term.
  now destruct (Db.system_settings d).
Qed.

End OpenCount.

Lemma offline_merge_keeps_invariant request_body d :
  Ledger.currently_out_invariant (Db.transaction_logs d) ->
  Ledger.admissible (Ledger.OfflineMerge request_body) d ->
  Ledger.currently_out_invariant
    (Db.transaction_logs
       (fst (views_api.esp32_log_offline_access request_body d))).
Proof.
  intros Hinv Hadm. destruct request_body as [data|]; [|exact Hinv].
  unfold views_api.esp32_log_offline_access. simpl in Hadm.
  destruct (views_api.lookup_code RFIDRegistration.rfid_code _ _)
    as [rfid|] eqn:Hrfid; [|exact Hinv].
  destruct (views_api.lookup_code Room.code _ _) as [room|] eqn:Hroom;
    [|exact Hinv].
  rewrite (get_current_term_pair d).
  destruct (get_current_term_tables d) as (_ & _ & _ & Hlogs & _).
  destruct (views_api.offline_row rfid room (Db.current_term d) data)
    as [row|] eqn:Hrow; cbn [fst]; [|now rewrite Hlogs].
  unfold Db.create_transaction_log.
  cbn [fst Db.transaction_logs Db.with_transaction_logs]. rewrite Hlogs.
  apply invariant_app; [exact Hinv|].
  intros rfid' room' ay' sem' Hopen.
  unfold views_api.offline_row in Hrow.
  destruct (views_api.OfflineEvent.access_granted data) as [g|];
    [|discriminate].
  assert (Hshape : exists ot,
             row = fun pk =>
                     TransactionLog.mk pk (Some (RFIDRegistration.id rfid))
                       (Some (Room.id room))
                       (Faculty.full_name (RFIDRegistration.faculty rfid))
                       (views.text (views_api.OfflineEvent.room_code data))
                       (views.text (views_api.OfflineEvent.rfid_code data))
                       (SystemSettings.current_academic_year (Db.current_term d))
                       (SystemSettings.current_semester (Db.current_term d))
                       ot None g None None).
  { destruct (views_api.OfflineEvent.timestamp data) as [|[t|]];
      [| |discriminate]; injection Hrow as <-; eexists; reflexivity. }
  destruct Hshape as [ot ->]. revert Hopen.
  unfold views_api.lookup_code in *. unfold views.is_open_log. simpl.
  rewrite !andb_true_iff, !Z.eqb_eq, !String.eqb_eq.
  intros (((((H1 & H2) & H3) & H4) & _) & H6). subst.
  now apply Hadm.
Qed.

Lemma run_keeps_invariant o d :
  Ledger.currently_out_invariant (Db.transaction_logs d) ->
  Ledger.admissible o d ->
  Ledger.currently_out_invariant (Db.transaction_logs (Ledger.run o d)).
Proof.
  intros Hinv Hadm. destruct o as [now request|request_body|ay sem].
  - now apply rfid_swipe_keeps_invariant.
  - now apply offline_merge_keeps_invariant.
  - simpl. now rewrite set_term_keeps_logs.
Qed.

(** C1 at the ledger of the scenario: starting from an empty ledger, a
    live borrow followed by the merge of an offline grant for the same
    badge and room leaves two open granted rows for that credential, room
    and term. *)
Lemma C1_counterexample_merge_opens_second_row :
  Db.transaction_logs Scenario.db0 = []
  /\ Ledger.reachable Scenario.db0 Scenario.db2
  /\ Ledger.open_count 1 1 "2025-2026" "1st"
       (Db.transaction_logs Scenario.db2) = 2%nat
  /\ ~ Ledger.currently_out_invariant (Db.transaction_logs Scenario.db2).
Proof.
  split; [reflexivity|]. split; [|split].
  - apply (Ledger.reachable_step Scenario.db0 _
             (Ledger.OfflineMerge (Some Scenario.offline_grant))).
    apply (Ledger.reachable_step Scenario.db0 _
             (Ledger.Swipe Scenario.monday_0830 Scenario.swipe)).
    apply Ledger.reachable_start.
  - reflexivity.
  - intros H. specialize (H 1 1 "2025-2026" "1st").
    vm_compute in H. lia.
Qed.

(** C1, amended: for every credential, room and term the number of open
    granted rows is 0 or 1 in every state reached from an empty ledger by
    live swipes, term changes and offline merges that are not a grant for
    a key with an open row; each such operation, and every live swipe in
    particular, preserves the count invariant. *)
Theorem C1_one_open_row_without_matched_offline_grants :
  forall (d0 d : Db.t),
    Db.transaction_logs d0 = [] ->
    Ledger.admissibly_reachable d0 d ->
    Ledger.currently_out_invariant (Db.transaction_logs d)
    /\ (forall now request,
           Ledger.currently_out_invariant
             (Db.transaction_logs (fst (views.rfid_swipe now request d))))
    /\ (forall o, Ledger.admissible o d ->
                  Ledger.currently_out_invariant
                    (Db.transaction_logs (Ledger.run o d))).
Proof.
  intros d0 d Hempty Hreach.
  assert (Hinv : Ledger.currently_out_invariant (Db.transaction_logs d)).
  { induction Hreach as [|d o Hreach IH Hadm].
    - rewrite Hempty. intros rfid room ay sem.
      unfold Ledger.open_count. simpl. lia.
    - now apply run_keeps_invariant. }
  split; [exact Hinv|]. split.
  - intros now request. now apply rfid_swipe_keeps_invariant.
  - intros o Hadm. now apply run_keeps_invariant.
Qed.

Lemma C1_witness_after_first_swipe :
  Db.transaction_logs Scenario.db0 = []
  /\ Ledger.admissibly_reachable Scenario.db0 Scenario.db1
  /\ Ledger.currently_out_invariant (Db.transaction_logs Scenario.db1).
Proof.
  assert (Hreach : Ledger.admissibly_reachable Scenario.db0 Scenario.db1).
  { apply (Ledger.admissible_step Scenario.db0 Scenario.db0
             (Ledger.Swipe Scenario.monday_0830 Scenario.swipe)).
    - apply Ledger.admissible_start.
    - exact I. }
  split; [reflexivity|]. split; [exact Hreach|].
  apply (C1_one_open_row_without_matched_offline_grants
           Scenario.db0 Scenario.db1 eq_refl Hreach).
Defined.

(** ** Command relay *)

Section CommandRelay.




Lemma truthy_Some s : s <> "" -> Py.truthy (Some s) = true.
Proof.
  intros H. simpl. destruct (String.eqb_spec s ""); [contradiction|reflexivity].
Qed.





End CommandRelay.



(** ** Staleness check *)



(** ** Heartbeat *)

Section Heartbeat.


Variables (now : Z) (request : views.HeartbeatRequest.t) (d : Db.t)
          (device : ESP32Device.t).

Let device_id := fst (views.heartbeat_params request).
Let firmware_version := snd (views.heartbeat_params request).

Hypothesis Hid : Py.truthy device_id = true.
Hypothesis Hget : views.get_active_device (views.text device_id) d = Some device.


End Heartbeat.




(** * Further properties of the handlers *)

(** ** Swipes that are not attempts, and what a swipe leaves alone *)

(** A swipe with a missing parameter is answered 400, one with an unknown
    badge 404, and one with a known active badge but an unknown room 404;
    in each case the database is returned as it was, so nothing reaches
    the ledger. *)
Theorem swipe_lookup_failures_write_nothing :
  forall (now : Z) (request : views.SwipeRequest.t) (d : Db.t),
    let answer := views.rfid_swipe now request d in
    let refused http :=
      fst answer = d
      /\ views.SwipeResponse.http_status (snd answer) = http
      /\ views.SwipeResponse.access_granted (snd answer) = false
      /\ views.SwipeResponse.status (snd answer) = "error" in
    (Py.truthy (Spec.swipe_code request) = false
     \/ Py.truthy (Spec.swipe_room request) = false -> refused 400)
    /\ (Py.truthy (Spec.swipe_code request) = true ->
        Py.truthy (Spec.swipe_room request) = true ->
        find (fun r => String.eqb (RFIDRegistration.rfid_code r)
                                  (views.text (Spec.swipe_code request)))
             (Db.rfid_registrations d) = None ->
        refused 404)
    /\ (forall rfid,
           Py.truthy (Spec.swipe_code request) = true ->
           Py.truthy (Spec.swipe_room request) = true ->
           find (fun r => String.eqb (RFIDRegistration.rfid_code r)
                                     (views.text (Spec.swipe_code request)))
                (Db.rfid_registrations d) = Some rfid ->
           RFIDRegistration.is_active rfid = true ->
           find (fun r => String.eqb (Room.code r)
                                     (views.text (Spec.swipe_room request)))
                (Db.rooms d) = None ->
           refused 404).
Proof.
  intros now request d answer refused. subst answer refused.
  unfold Spec.swipe_code, Spec.swipe_room, views.rfid_swipe.
  split; [|split].
  - intros [H|H]; rewrite H; cbn [negb orb];
      [|rewrite orb_true_r]; repeat split.
  - intros Hc Hr Hf. rewrite Hc, Hr. cbn [negb orb]. rewrite Hf.
    repeat split.
  - intros rfid Hc Hr Hf Ha Hg. rewrite Hc, Hr. cbn [negb orb].
    rewrite Hf, Ha. cbn [negb]. rewrite Hg. repeat split.
Qed.

Section SwipeFrame.

Lemma record_attempt_frame now d rfid room ay sem decision :
  let d' := fst (fst (views.record_attempt now d rfid room ay sem decision)) in
  Db.rooms d' = Db.rooms d
  /\ Db.rfid_registrations d' = Db.rfid_registrations d
  /\ Db.room_schedules d' = Db.room_schedules d
  /\ Db.system_settings d' = Db.system_settings d
  /\ Db.manual_door_logs d' = Db.manual_door_logs d
  /\ Db.esp32_devices d' = Db.esp32_devices d
  /\ ((exists new, Db.transaction_logs d' = (Db.transaction_logs d ++ [new])%list)
      \/ (List.length (Db.transaction_logs d')
          = List.length (Db.transaction_logs d)
          /\ map TransactionLog.id (Db.transaction_logs d')
             = map TransactionLog.id (Db.transaction_logs d))).
Proof.
  destruct decision as [[[|] reason] sched].
  - destruct (views.open_log d rfid room ay sem) as [l|] eqn:E.
    + rewrite (record_attempt_return _ _ _ _ _ _ _ _ _ E). cbn [fst].
      repeat split; try reflexivity. right. rewrite logs_after_save.
      split; [apply length_map|].
      rewrite map_map. apply map_ext. intros r.
      destruct (Z.eqb_spec (TransactionLog.id r)
                  (TransactionLog.id (TransactionLog.with_close_time (Some now) l)));
        congruence.
    + rewrite (record_attempt_borrow _ _ _ _ _ _ _ _ E). cbn [fst].
      repeat split; try reflexivity. left. eexists. reflexivity.
  - rewrite record_attempt_denied. cbn [fst].
    repeat split; try reflexivity. left. eexists. reflexivity.
Qed.

End SwipeFrame.

(** Whatever the request, a swipe changes no room, registration,
    schedule, command or device; it creates the term settings row at most;
    and in the ledger it either changes nothing, or appends one row, or
    rewrites rows in place, keeping the number of rows and their
    primary keys. *)
Theorem swipe_touches_the_ledger_only :
  forall (now : Z) (request : views.SwipeRequest.t) (d : Db.t),
    let d' := fst (views.rfid_swipe now request d) in
    Db.rooms d' = Db.rooms d
    /\ Db.rfid_registrations d' = Db.rfid_registrations d
    /\ Db.room_schedules d' = Db.room_schedules d
    /\ Db.manual_door_logs d' = Db.manual_door_logs d
    /\ Db.esp32_devices d' = Db.esp32_devices d
    /\ (Db.system_settings d' = Db.system_settings d
        \/ Db.system_settings d = None
           /\ Db.system_settings d' = Some SystemSettings.default)
    /\ (Db.transaction_logs d' = Db.transaction_logs d
        \/ (exists new,
               Db.transaction_logs d' = (Db.transaction_logs d ++ [new])%list)
        \/ (List.length (Db.transaction_logs d')
            = List.length (Db.transaction_logs d)
            /\ map TransactionLog.id (Db.transaction_logs d')
               = map TransactionLog.id (Db.transaction_logs d))).
Proof.
  intros now request d d'. subst d'. unfold views.rfid_swipe.
  destruct (negb _ || negb _); [cbn [fst]; tauto|].
  destruct (find _ (Db.rfid_registrations d)) as [rfid|]; [|cbn [fst]; tauto].
  destruct (negb (RFIDRegistration.is_active rfid)); [cbn [fst]; tauto|].
  destruct (find _ (Db.rooms d)) as [room|]; [|cbn [fst]; tauto].
  destruct (negb (Room.is_active room)); [cbn [fst]; tauto|].
  rewrite (get_current_term_pair d). cbv beta iota zeta.
  destruct (get_current_term_tables d) as (H1 & H2 & H3 & H4 & H5 & H6).
  pose proof (record_attempt_frame now (fst (Db.get_current_term d)) rfid room
                (SystemSettings.current_academic_year (Db.current_term d))
                (SystemSettings.current_semester (Db.current_term d))
                (views.decide now (fst (Db.get_current_term d)) rfid room
                   (SystemSettings.current_semester (Db.current_term d))))
    as F.
  cbv zeta in F.
  destruct (views.decide _ _ _ _ _) as [[g r] a].
  destruct (views.record_attempt _ _ _ _ _ _ _) as [[d2 act] msg].
  cbn [fst] in F |- *.
  destruct F as (F1 & F2 & F3 & F4 & F5 & F6 & F7).
  rewrite F1, F2, F3, F5, F6, H1, H2, H3, H5, H6.
  repeat split.
  - rewrite F4. unfold Db.get_current_term.
    destruct (Db.system_settings d) as [s|] eqn:E;
      cbn [fst Db.system_settings Db.with_system_settings];
      [left; congruence|right; split; congruence].
  - rewrite H4 in F7. destruct F7 as [F7|F7]; auto.
Qed.

(** The envelope of every swipe answer: a granted answer has status 200
    and "ok", an empty denial reason and the action borrow or return; an
    answer that is not granted has status "error", no action and a
    non-empty denial reason. *)
Theorem swipe_answer_envelope :
  forall (now : Z) (request : views.SwipeRequest.t) (d : Db.t),
    let r := snd (views.rfid_swipe now request d) in
    (views.SwipeResponse.access_granted r = true ->
     views.SwipeResponse.http_status r = 200
     /\ views.SwipeResponse.status r = "ok"
     /\ views.SwipeResponse.denial_reason r = ""
     /\ (views.SwipeResponse.action r = "borrow_key"
         \/ views.SwipeResponse.action r = "return_key"))
    /\ (views.SwipeResponse.access_granted r = false ->
        views.SwipeResponse.status r = "error"
        /\ views.SwipeResponse.action r = ""
        /\ views.SwipeResponse.denial_reason r <> "").
Proof.
  intros now request d r. subst r. unfold views.rfid_swipe.
  destruct (negb _ || negb _);
    [cbn; split; [discriminate|intros _; repeat split; discriminate]|].
  destruct (find _ (Db.rfid_registrations d)) as [rfid|];
    [|cbn; split; [discriminate|intros _; repeat split; discriminate]].
  destruct (negb (RFIDRegistration.is_active rfid));
    [cbn; split; [discriminate|intros _; repeat split; discriminate]|].
  destruct (find _ (Db.rooms d)) as [room|];
    [|cbn; split; [discriminate|intros _; repeat split; discriminate]].
  destruct (negb (Room.is_active room));
    [cbn; split; [discriminate|intros _; repeat split; discriminate]|].
  rewrite (get_current_term_pair d). cbv beta iota zeta.
  pose proof (reason_nonempty now (fst (Db.get_current_term d)) rfid room
                (SystemSettings.current_semester (Db.current_term d))) as Hne.
  destruct (views.decide _ _ _ _ _) as [[g reason] a]. cbn [fst snd] in Hne.
  destruct g.
  - destruct (views.open_log (fst (Db.get_current_term d)) rfid room
                (SystemSettings.current_academic_year (Db.current_term d))
                (SystemSettings.current_semester (Db.current_term d)))
      as [l|] eqn:E.
    + rewrite (record_attempt_return _ _ _ _ _ _ _ _ _ E). cbn.
      split; [intros _; repeat split; auto|discriminate].
    + rewrite (record_attempt_borrow _ _ _ _ _ _ _ _ E). cbn.
      split; [intros _; repeat split; auto|discriminate].
  - rewrite record_attempt_denied.
    cbn [snd views.SwipeResponse.access_granted views.SwipeResponse.status
         views.SwipeResponse.action views.SwipeResponse.denial_reason
         views.SwipeResponse.http_status].
    split; [discriminate|]. intros _.
    destruct (Hne eq_refl) as (x & Hx & Hnx). rewrite Hx. cbn [views.text].
    repeat split. exact Hnx.
Qed.

(** ** The schedule methods of the model and the swipe handler *)

Section ScheduleMethods.

Lemma short_name_is_prefix (now : Z) :
  Py.lower (models.strftime_a now)
  = Py.prefix 3 (Py.lower (Clock.strftime_A now)).
Proof.
  unfold models.strftime_a, Clock.strftime_A.
  now destruct (Clock.weekday_of now).
Qed.

Lemma today_is_not_empty (now : Z) :
  String.eqb (Py.lower (Clock.strftime_A now)) "" = false
  /\ String.eqb (Py.prefix 3 (Py.lower (Clock.strftime_A now))) "" = false.
Proof.
  unfold Clock.strftime_A. now destruct (Clock.weekday_of now).
Qed.

(** The day test of the method and the day test of the handler give the
    same answer, also on a schedule whose days text is empty. *)
Lemma day_test_agrees (now : Z) (s : RoomSchedule.t) :
  Py.contains (Py.lower (Clock.strftime_A now))
              (map (fun d => Py.lower (Py.strip d)) (models.get_days_list s))
  || Py.contains (Py.lower (models.strftime_a now))
                 (map (fun d => Py.lower (Py.strip d)) (models.get_days_list s))
  = views.day_match (views.day_matches (Py.lower (Clock.strftime_A now))) s.
Proof.
  unfold views.day_match, views.day_matches. cbn [existsb].
  assert (Hcap : Py.contains (Py.capitalize (Py.lower (Clock.strftime_A now)))
                             (views.days_list s) = false).
  { unfold Clock.strftime_A.
    destruct (Clock.weekday_of now);
      apply capital_not_in_days_list; reflexivity. }
  rewrite Hcap, !orb_false_r, short_name_is_prefix.
  unfold models.get_days_list, views.days_list.
  destruct (String.eqb_spec (RoomSchedule.day_of_week s) "") as [E|E];
    cbn [negb]; [|reflexivity].
  rewrite E. destruct (today_is_not_empty now) as [H1 H2].
  cbn [Py.split map Py.contains existsb].
  change (Py.lower (Py.strip "")) with "".
  now rewrite H1, H2.
Qed.

Lemma can_access_now_iff (now : Z) (s : RoomSchedule.t) (faculty : Faculty.t) :
  models.can_access_now now s faculty = true <->
  RoomSchedule.is_active s = true
  /\ RoomSchedule.faculty s = Some (Faculty.id faculty)
  /\ Spec.names_today now s
  /\ RoomSchedule.start_time s <= Clock.time now <= RoomSchedule.end_time s.
Proof.
  unfold models.can_access_now, models.is_schedule_active_now, Spec.names_today.
  rewrite day_test_agrees.
  destruct (RoomSchedule.is_active s); cbn [negb].
  - destruct (views.day_match _ s); cbn [andb negb].
    + destruct ((RoomSchedule.start_time s <=? Clock.time now)
                && (Clock.time now <=? RoomSchedule.end_time s)) eqn:T;
        cbn [negb].
      * rewrite option_Z_eqb_Some. apply andb_true_iff in T.
        rewrite !Z.leb_le in T. tauto.
      * split; [discriminate|]. intros (_ & _ & _ & H).
        apply andb_false_iff in T. rewrite !Z.leb_gt in T. lia.
    + split; [discriminate|]. intros (_ & _ & H & _). discriminate.
  - split; [discriminate|]. intros (H & _). discriminate.
Qed.

End ScheduleMethods.

(** [RoomSchedule.is_schedule_active_now] is the test of the swipe
    handler: the schedule is active, names today (by full or short name)
    and its hours contain the time of day, both ends included. *)
Theorem is_schedule_active_now_is_the_swipe_test :
  forall (now : Z) (s : RoomSchedule.t),
    models.is_schedule_active_now now s
    = RoomSchedule.is_active s
      && views.day_match (views.day_matches (Py.lower (Clock.strftime_A now))) s
      && views.time_match (Clock.time now) s.
Proof.
  intros now s. unfold models.is_schedule_active_now, views.time_match.
  rewrite day_test_agrees.
  destruct (RoomSchedule.is_active s); reflexivity.
Qed.

(** With an active credential and an active room, the swipe is granted
    exactly when some schedule row of the room and the current semester
    answers [can_access_now] for the faculty of the credential. *)
Theorem swipe_granted_iff_some_schedule_can_access_now :
  forall (now : Z) (request : views.SwipeRequest.t) (d : Db.t)
         (rfid : RFIDRegistration.t) (room : Room.t),
    Spec.resolves request d rfid room ->
    RFIDRegistration.is_active rfid = true ->
    Room.is_active room = true ->
    (views.SwipeResponse.access_granted (snd (views.rfid_swipe now request d))
     = true <->
     exists s,
       In s (Db.room_schedules d)
       /\ RoomSchedule.room s = Room.id room
       /\ RoomSchedule.semester s
          = SystemSettings.current_semester (Db.current_term d)
       /\ models.can_access_now now s (RFIDRegistration.faculty rfid) = true).
Proof.
  intros now request d rfid room Hres Ha Hb.
  rewrite (rfid_swipe_active now request d rfid room Hres Ha Hb).
  cbn [snd views.SwipeResponse.access_granted].
  rewrite decide_granted_iff.
  destruct (get_current_term_tables d) as (_ & _ & -> & _).
  split; intros (s & Hin & H); exists s; (split; [exact Hin|]).
  - destruct H as ((H1 & H2 & H3 & H4) & H5 & H6).
    split; [exact H1|]. split; [exact H3|].
    apply can_access_now_iff. tauto.
  - destruct H as (H1 & H3 & H).
    apply can_access_now_iff in H. unfold Spec.authorizes, Spec.window_of.
    tauto.
Qed.

Lemma swipe_granted_iff_some_schedule_can_access_now_witness :
  Spec.resolves Scenario.swipe Scenario.db0 Scenario.card Scenario.room203
  /\ (exists s,
         In s (Db.room_schedules Scenario.db0)
         /\ models.can_access_now Scenario.monday_0830 s Scenario.prof = true)
  /\ views.SwipeResponse.access_granted
       (snd (views.rfid_swipe Scenario.monday_0830 Scenario.swipe Scenario.db0))
     = true.
Proof.
  assert (Hres : Spec.resolves Scenario.swipe Scenario.db0 Scenario.card
                               Scenario.room203)
    by (repeat split; reflexivity).
  split; [exact Hres|].
  split; [exists Scenario.window; split; [now left|reflexivity]|].
  apply (proj2 (swipe_granted_iff_some_schedule_can_access_now
                  Scenario.monday_0830 Scenario.swipe Scenario.db0
                  Scenario.card Scenario.room203 Hres eq_refl eq_refl)).
  exists Scenario.window. repeat split. now left.
Defined.

(** ** Schedule download *)

Section Ordering.

Context {A : Type} (before : A -> A -> bool).

Lemma insert_In (x y : A) (l : list A) :
  In y (OrderBy.insert before x l) <-> y = x \/ In y l.
Proof.
  induction l as [|a l IH]; simpl.
  - intuition congruence.
  - destruct (before a x); simpl; rewrite ?IH; intuition congruence.
Qed.

Lemma sort_In (y : A) (l : list A) :
  In y (OrderBy.sort before l) <-> In y l.
Proof.
  induction l as [|a l IH]; simpl; [tauto|].
  rewrite insert_In, IH. intuition congruence.
Qed.

Lemma insert_flat_map_length {B : Type} (f : A -> list B) (x : A) (l : list A) :
  List.length (flat_map f (OrderBy.insert before x l))
  = (List.length (f x) + List.length (flat_map f l))%nat.
Proof.
  induction l as [|a l IH]; simpl.
  - rewrite length_app. reflexivity.
  - destruct (before a x); simpl; rewrite ?length_app, ?IH; simpl;
      rewrite ?length_app; lia.
Qed.

Lemma sort_flat_map_length {B : Type} (f : A -> list B) (l : list A) :
  List.length (flat_map f (OrderBy.sort before l))
  = List.length (flat_map f l).
Proof.
  induction l as [|a l IH]; simpl; [reflexivity|].
  now rewrite insert_flat_map_length, length_app, IH.
Qed.


End Ordering.

Section Download.

Variables (faculties : list Faculty.t) (now : Z) (d : Db.t) (room : Room.t)
          (room_code : string).
Hypothesis Hcode : room_code <> "".
Hypothesis Hroom :
  find (fun r => String.eqb (Room.code r) room_code && Room.is_active r)
       (Db.rooms d) = Some room.

Lemma esp32_get_schedules_found :
  schedule_download.esp32_get_schedules faculties now (Some room_code) None d =
  (fst (Db.get_current_term d),
   let schedule_list :=
     flat_map (schedule_download.entries faculties d room)
              (schedule_download.room_schedules d room
                 (SystemSettings.current_semester (Db.current_term d))) in
   schedule_download.DownloadResponse.mk 200 "success" "" (Some room_code)
     (Some (SystemSettings.current_semester (Db.current_term d)))
     (Some (SystemSettings.current_academic_year (Db.current_term d)))
     (Z.of_nat (List.length schedule_list)) schedule_list (Some now)
     (Some (Py.lower (Clock.strftime_A now)))).
Proof.
  unfold schedule_download.esp32_get_schedules, Py.or_.
  rewrite (truthy_Some _ Hcode). cbv iota. rewrite (truthy_Some _ Hcode).
  cbn [negb views.text]. rewrite Hroom, (get_current_term_pair d).
  cbv beta iota zeta.
  destruct (get_current_term_tables d) as (_ & H2 & H3 & _).
  unfold schedule_download.room_schedules, schedule_download.entries,
    schedule_download.faculty_rfids.
  rewrite H2, H3. reflexivity.
Qed.

Lemma room_schedules_In s semester :
  In s (schedule_download.room_schedules d room semester) <->
  In s (Db.room_schedules d)
  /\ RoomSchedule.room s = Room.id room
  /\ RoomSchedule.semester s = semester
  /\ RoomSchedule.is_active s = true.
Proof.
  unfold schedule_download.room_schedules.
  rewrite sort_In, filter_In, !andb_true_iff, Z.eqb_eq, String.eqb_eq.
  tauto.
Qed.

End Download.

(** A download without a room code is answered 400 and one for an unknown
    or inactive room 404, the database returned as it was; and no download
    changes any table, the term settings row being created at most. *)
Theorem download_refusals_and_frame :
  forall (faculties : list Faculty.t) (now : Z)
         (GET_room POST_room : option string) (d : Db.t),
    let answer :=
      schedule_download.esp32_get_schedules faculties now GET_room POST_room d in
    let room_code := Py.or_ GET_room POST_room in
    (Py.truthy room_code = false ->
     fst answer = d
     /\ schedule_download.DownloadResponse.http_status (snd answer) = 400
     /\ schedule_download.DownloadResponse.schedules (snd answer) = [])
    /\ (Py.truthy room_code = true ->
        (forall r, In r (Db.rooms d) ->
                   Room.code r = views.text room_code ->
                   Room.is_active r = false) ->
        fst answer = d
        /\ schedule_download.DownloadResponse.http_status (snd answer) = 404
        /\ schedule_download.DownloadResponse.schedules (snd answer) = [])
    /\ Frame.same_rows (fst answer) d.
Proof.
  intros faculties now GET_room POST_room d answer room_code.
  subst answer room_code. unfold schedule_download.esp32_get_schedules.
  split; [|split].
  - intros H. rewrite H. repeat split.
  - intros H Hnone. rewrite H. cbn [negb].
    destruct (find _ (Db.rooms d)) as [room|] eqn:E; [|repeat split].
    exfalso. apply find_some in E. destruct E as [Hin E].
    apply andb_true_iff in E. destruct E as [E1 E2].
    apply String.eqb_eq in E1. rewrite (Hnone room Hin E1) in E2.
    discriminate.
  - destruct (negb _); [repeat split|].
    destruct (find _ (Db.rooms d)) as [room|]; [|repeat split].
    rewrite (get_current_term_pair d). cbv beta iota zeta. cbn [fst].
    exact (get_current_term_tables d).
Qed.

(** For an existing active room the download holds exactly one entry for
    every stored day of every active schedule row of the room and the
    current semester, carrying the row's key, that day, its hours as
    HH:MM, and the codes of the active cards of the row's faculty
    registered for the room; [schedule_count] is the number of entries,
    which is the total number of stored days of those rows. *)
Theorem download_lists_each_day_of_each_active_window :
  forall (faculties : list Faculty.t) (now : Z) (d : Db.t) (room : Room.t)
         (room_code : string),
    room_code <> "" ->
    find (fun r => String.eqb (Room.code r) room_code && Room.is_active r)
         (Db.rooms d) = Some room ->
    let response :=
      snd (schedule_download.esp32_get_schedules faculties now
             (Some room_code) None d) in
    let semester := SystemSettings.current_semester (Db.current_term d) in
    let windows :=
      filter (fun s => (RoomSchedule.room s =? Room.id room)
                       && String.eqb (RoomSchedule.semester s) semester
                       && RoomSchedule.is_active s)
             (Db.room_schedules d) in
    (forall e,
        In e (schedule_download.DownloadResponse.schedules response) <->
        exists s day,
          In s windows
          /\ In day (views.days_list s)
          /\ e = schedule_download.ScheduleEntry.mk (RoomSchedule.id s) day
                   (schedule_download.strftime_H_M (RoomSchedule.start_time s))
                   (schedule_download.strftime_H_M (RoomSchedule.end_time s))
                   (RoomSchedule.subject s)
                   (schedule_download.faculty_name faculties s)
                   (schedule_download.faculty_rfids d room s)
                   (RoomSchedule.instructor_name s))
    /\ schedule_download.DownloadResponse.schedule_count response
       = Z.of_nat (List.length
                     (schedule_download.DownloadResponse.schedules response))
    /\ schedule_download.DownloadResponse.schedule_count response
       = Z.of_nat (List.length (flat_map views.days_list windows)).
Proof.
  intros faculties now d room room_code Hcode Hroom response semester windows.
  subst response.
  rewrite (esp32_get_schedules_found faculties now d room room_code Hcode Hroom).
  cbv zeta.
  cbn [snd schedule_download.DownloadResponse.schedules
       schedule_download.DownloadResponse.schedule_count].
  fold semester. unfold schedule_download.room_schedules. fold windows.
  split; [|split; [reflexivity|]].
  - intros e. rewrite in_flat_map. split.
    + intros (s & Hs & He). apply sort_In in Hs.
      unfold schedule_download.entries in He. apply in_map_iff in He.
      destruct He as (day & <- & Hday). exists s, day. auto.
    + intros (s & day & Hs & Hday & ->). exists s. split; [now apply sort_In|].
      unfold schedule_download.entries. apply in_map_iff. exists day. auto.
  - f_equal. rewrite sort_flat_map_length.
    induction windows as [|s l IH]; [reflexivity|].
    cbn [flat_map]. rewrite !length_app, IH.
    unfold schedule_download.entries. now rewrite length_map.
Qed.

Lemma download_lists_each_day_of_each_active_window_witness :
  schedule_download.DownloadResponse.schedule_count
    (snd (schedule_download.esp32_get_schedules [Scenario.prof] 0
            (Some "203") None Scenario.db_mw)) = 2
  /\ exists e,
      In e (schedule_download.DownloadResponse.schedules
              (snd (schedule_download.esp32_get_schedules [Scenario.prof] 0
                      (Some "203") None Scenario.db_mw)))
      /\ schedule_download.ScheduleEntry.day e = "wednesday"
      /\ schedule_download.ScheduleEntry.start_time e = "08:00"
      /\ schedule_download.ScheduleEntry.faculty_rfids e = ["RFID-001"].
Proof.
  destruct (download_lists_each_day_of_each_active_window [Scenario.prof] 0
              Scenario.db_mw Scenario.room203 "203")
    as (Hin & _ & Hcount); [discriminate|reflexivity|].
  split; [exact Hcount|].
  eexists. split.
  - apply Hin. exists Scenario.window_mw, "wednesday".
    split; [now left|]. split; [right; now left|reflexivity].
  - repeat split.
Defined.

Section OfflineCache.

Lemma find_with_extra_test {A : Type} (p q : A -> bool) (l : list A) (x : A) :
  find p l = Some x -> q x = true -> find (fun r => p r && q r) l = Some x.
Proof.
  induction l as [|a l IH]; simpl; [discriminate|].
  destruct (p a) eqn:E; cbn [andb].
  - intros H Hq. injection H as ->. now rewrite Hq.
  - auto.
Qed.

Lemma names_today_day (now : Z) (s : RoomSchedule.t) :
  Spec.names_today now s ->
  exists day,
    In day (views.days_list s)
    /\ (day = Py.lower (Clock.strftime_A now)
        \/ day = Py.prefix 3 (Py.lower (Clock.strftime_A now))).
Proof.
  intros H. apply names_today_iff in H.
  destruct H as [H|H]; unfold Py.contains in H; apply existsb_exists in H;
    destruct H as (day & Hin & E); apply String.eqb_eq in E;
    exists day; auto.
Qed.

End OfflineCache.

(** What the server grants live the controller can grant from its
    download: when a swipe with a card registered for the room is granted,
    the download of that room holds an entry of an authorising window
    whose day is today's name, full or short, and whose card list
    contains the badge code. *)
Theorem live_grant_is_in_the_download :
  forall (faculties : list Faculty.t) (now download_at : Z)
         (request : views.SwipeRequest.t) (d : Db.t)
         (rfid : RFIDRegistration.t) (room : Room.t),
    Spec.resolves request d rfid room ->
    RFIDRegistration.is_active rfid = true ->
    Room.is_active room = true ->
    RFIDRegistration.room rfid = Room.id room ->
    views.SwipeResponse.access_granted (snd (views.rfid_swipe now request d))
    = true ->
    exists e s,
      In e (schedule_download.DownloadResponse.schedules
              (snd (schedule_download.esp32_get_schedules faculties download_at
                      (Spec.swipe_room request) None d)))
      /\ In s (Db.room_schedules d)
      /\ Spec.authorizes now rfid room
           (SystemSettings.current_semester (Db.current_term d)) s
      /\ schedule_download.ScheduleEntry.id e = RoomSchedule.id s
      /\ (schedule_download.ScheduleEntry.day e
          = Py.lower (Clock.strftime_A now)
          \/ schedule_download.ScheduleEntry.day e
             = Py.prefix 3 (Py.lower (Clock.strftime_A now)))
      /\ In (RFIDRegistration.rfid_code rfid)
            (schedule_download.ScheduleEntry.faculty_rfids e).
Proof.
  intros faculties now download_at request d rfid room Hres Ha Hb Hreg.
  rewrite (rfid_swipe_active now request d rfid room Hres Ha Hb).
  cbn [snd views.SwipeResponse.access_granted]. intros Hg.
  apply decide_granted_iff in Hg. destruct Hg as (s & Hin & Hauth).
  destruct (get_current_term_tables d) as (_ & _ & Hs & _).
  rewrite Hs in Hin.
  destruct Hres as (Hc & Hr & Hf & Hroom).
  assert (Hcode : views.text (Spec.swipe_room request) <> "").
  { destruct (Spec.swipe_room request) as [c|]; [|discriminate].
    cbn in Hr |- *. intros E. rewrite E in Hr. discriminate. }
  assert (Hsome : Spec.swipe_room request
                  = Some (views.text (Spec.swipe_room request))).
  { destruct (Spec.swipe_room request); [reflexivity|discriminate]. }
  pose proof (find_with_extra_test _ Room.is_active _ _ Hroom Hb) as Hfind.
  rewrite Hsome.
  rewrite (esp32_get_schedules_found faculties download_at d room _ Hcode Hfind).
  cbv zeta. cbn [snd schedule_download.DownloadResponse.schedules].
  destruct Hauth as ((W1 & W2 & W3 & W4) & Hday & Htime).
  destruct (names_today_day now s Hday) as (day & Hdin & Hdeq).
  eexists. exists s. split.
  - apply in_flat_map. exists s. split.
    + apply room_schedules_In. tauto.
    + unfold schedule_download.entries. apply in_map_iff.
      exists day. split; [reflexivity|exact Hdin].
  - split; [exact Hin|].
    split; [unfold Spec.authorizes, Spec.window_of; tauto|].
    cbn [schedule_download.ScheduleEntry.id schedule_download.ScheduleEntry.day
         schedule_download.ScheduleEntry.faculty_rfids].
    split; [reflexivity|]. split; [exact Hdeq|].
    unfold schedule_download.faculty_rfids. rewrite W2.
    apply in_map. apply filter_In. split.
    + apply (find_some _ _ Hf).
    + now rewrite Hreg, Ha, !Z.eqb_refl.
Qed.

Lemma live_grant_is_in_the_download_witness :
  Spec.resolves Scenario.swipe Scenario.db0 Scenario.card Scenario.room203
  /\ exists e,
      In e (schedule_download.DownloadResponse.schedules
              (snd (schedule_download.esp32_get_schedules [Scenario.prof] 0
                      (Some "203") None Scenario.db0)))
      /\ In "RFID-001" (schedule_download.ScheduleEntry.faculty_rfids e).
Proof.
  assert (Hres : Spec.resolves Scenario.swipe Scenario.db0 Scenario.card
                               Scenario.room203)
    by (repeat split; reflexivity).
  split; [exact Hres|].
  destruct (live_grant_is_in_the_download [Scenario.prof]
              Scenario.monday_0830 0 Scenario.swipe Scenario.db0
              Scenario.card Scenario.room203 Hres eq_refl eq_refl eq_refl
              eq_refl)
    as (e & s & H1 & _ & _ & _ & _ & H6).
  exists e. split; [exact H1|exact H6].
Defined.

(** ** Device status and heartbeats *)

Section DeviceStatus.






Lemma find_none_of {A : Type} (p : A -> bool) (l : list A) :
  (forall x, In x l -> p x = false) -> find p l = None.
Proof.
  induction l as [|a l IH]; intros H; [reflexivity|].
  cbn [find]. rewrite (H a) by now left. apply IH. intros x Hx.
  apply H. now right.
Qed.

End DeviceStatus.


(** A heartbeat without a device identifier is answered 400, and one
    whose identifier belongs to no active device 404; in both cases the
    database is returned as it was. *)
Theorem heartbeat_refusals_write_nothing :
  forall (now : Z) (request : views.HeartbeatRequest.t) (d : Db.t),
    let device_id := fst (views.heartbeat_params request) in
    let answer := views.esp32_heartbeat now request d in
    (Py.truthy device_id = false ->
     fst answer = d /\ views.HeartbeatResponse.http_status (snd answer) = 400)
    /\ (Py.truthy device_id = true ->
        (forall r, In r (Db.esp32_devices d) ->
                   ESP32Device.device_id r = views.text device_id ->
                   ESP32Device.is_active r = false) ->
        fst answer = d
        /\ views.HeartbeatResponse.http_status (snd answer) = 404).
Proof.
  intros now request d device_id answer. subst device_id answer.
  unfold views.esp32_heartbeat.
  destruct (views.heartbeat_params request) as [i f]. cbn [fst].
  split.
  - intros H. rewrite H. split; reflexivity.
  - intros H Hnone. rewrite H. cbn [negb].
    unfold views.get_active_device. rewrite find_none_of; [split; reflexivity|].
    intros x Hx. destruct (String.eqb_spec (ESP32Device.device_id x)
                             (views.text i)) as [E|E]; [|reflexivity].
    cbn [andb]. now apply Hnone.
Qed.



(** Once staff deactivate a device, its heartbeats are refused: with the
    hardware identifier naming that device only, a heartbeat carrying it
    is answered 404 and writes nothing. *)
Theorem deactivated_device_heartbeat_is_refused :
  forall (t now key : Z) (request : views.HeartbeatRequest.t) (d : Db.t)
         (device : ESP32Device.t),
    find (fun r => ESP32Device.id r =? key) (Db.esp32_devices d) = Some device ->
    ESP32Device.is_active device = true ->
    (forall r, In r (Db.esp32_devices d) ->
               ESP32Device.device_id r = ESP32Device.device_id device ->
               ESP32Device.id r = key) ->
    Py.truthy (fst (views.heartbeat_params request)) = true ->
    views.text (fst (views.heartbeat_params request))
    = ESP32Device.device_id device ->
    let d1 := fst (management.esp32_toggle_status t key d) in
    snd (management.esp32_toggle_status t key d) = management.Deactivated
    /\ fst (views.esp32_heartbeat now request d1) = d1
    /\ views.HeartbeatResponse.http_status
         (snd (views.esp32_heartbeat now request d1)) = 404.
Proof.
  intros t now key request d device Hfind Hact Huniq Hid Htext d1.
  subst d1. unfold management.esp32_toggle_status. rewrite Hfind, Hact.
  cbn [fst snd negb management.report ESP32Device.is_active].
  split; [reflexivity|].
  pose proof (find_some _ _ Hfind) as [_ Hkey]. apply Z.eqb_eq in Hkey.
  unfold views.esp32_heartbeat.
  destruct (views.heartbeat_params request) as [i f]. cbn [fst] in Hid, Htext.
  rewrite Hid. cbn [negb]. unfold views.get_active_device.
  rewrite find_none_of; [split; reflexivity|].
  intros x Hx. unfold views.save_device in Hx.
  cbn [Db.esp32_devices Db.with_esp32_devices ESP32Device.id] in Hx.
  apply in_map_iff in Hx. destruct Hx as (r & <- & Hr).
  destruct (Z.eqb_spec (ESP32Device.id r) (ESP32Device.id device)) as [E|E].
  - cbn [ESP32Device.device_id ESP32Device.is_active]. apply andb_false_r.
  - destruct (String.eqb_spec (ESP32Device.device_id r) (views.text i))
      as [E'|E']; [|reflexivity].
    exfalso. apply E. rewrite Hkey. apply Huniq; [exact Hr|congruence].
Qed.

Lemma deactivated_device_heartbeat_is_refused_witness :
  views.HeartbeatResponse.http_status
    (snd (views.esp32_heartbeat 5 (Scenario.beat None)
            (fst (management.esp32_toggle_status 1 1 Scenario.db_dev)))) = 404.
Proof.
  apply (deactivated_device_heartbeat_is_refused 1 5 1 (Scenario.beat None)
           Scenario.db_dev Scenario.controller eq_refl eq_refl).
  - intros r [<-|[]] _. reflexivity.
  - reflexivity.
  - reflexivity.
Defined.

(** ** Command relay: what a poll returns, what is stored, what is deleted *)

Section Relay.

Lemma first_by_timestamp_desc_max ls op :
  Db.first_by_timestamp_desc ls = Some op ->
  forall m, In m ls -> ManualDoorLog.timestamp m <= ManualDoorLog.timestamp op.
Proof.
  revert op. induction ls as [|a r IH]; intros op H m Hm; [destruct Hm|].
  cbn [Db.first_by_timestamp_desc] in H.
  destruct (Db.first_by_timestamp_desc r) as [b|] eqn:E.
  - destruct (Z.ltb_spec (ManualDoorLog.timestamp a) (ManualDoorLog.timestamp b));
      injection H as <-; destruct Hm as [<-|Hm];
      try lia; specialize (IH b eq_refl m Hm); lia.
  - injection H as <-. apply first_by_timestamp_desc_None in E. subst r.
    destruct Hm as [<-|[]]. lia.
Qed.

End Relay.

(** What a poll hands out is a stored command of a room with the polled
    code, at most five seconds old, and no stored command of that code in
    the window is newer; a poll finds nothing exactly when every stored
    command of that code is older than five seconds. *)
Theorem poll_returns_the_newest_command_in_the_window :
  forall (now : Z) (room_code : string) (d : Db.t),
    let in_window m :=
      Db.room_has_code d (ManualDoorLog.room m) room_code = true
      /\ now - ManualDoorLog.timestamp m <= Clock.timedelta_seconds 5 in
    (forall op,
        views.latest_operation now room_code d = Some op ->
        In op (Db.manual_door_logs d)
        /\ in_window op
        /\ forall m, In m (Db.manual_door_logs d) -> in_window m ->
                     ManualDoorLog.timestamp m <= ManualDoorLog.timestamp op)
    /\ (views.latest_operation now room_code d = None <->
        forall m, In m (Db.manual_door_logs d) -> ~ in_window m).
Proof.
  intros now room_code d in_window.
  assert (Hf : forall m,
             In m (filter
                     (fun m =>
                        Db.room_has_code d (ManualDoorLog.room m) room_code
                        && (now - Clock.timedelta_seconds 5
                            <=? ManualDoorLog.timestamp m))
                     (Db.manual_door_logs d)) <->
             In m (Db.manual_door_logs d) /\ in_window m).
  { intros m. subst in_window. cbv beta.
    rewrite filter_In, andb_true_iff, Z.leb_le.
    split; intros (H1 & H2 & H3); repeat split; auto; lia. }
  unfold views.latest_operation. split.
  - intros op H. pose proof (first_by_timestamp_desc_In _ _ H) as Hin.
    apply Hf in Hin. destruct Hin as [Hin Hw].
    split; [exact Hin|]. split; [exact Hw|].
    intros m Hm Hmw. apply (first_by_timestamp_desc_max _ _ H).
    apply Hf. auto.
  - rewrite first_by_timestamp_desc_None. split.
    + intros E m Hm Hw.
      assert (Hin : In m (filter
                     (fun m =>
                        Db.room_has_code d (ManualDoorLog.room m) room_code
                        && (now - Clock.timedelta_seconds 5
                            <=? ManualDoorLog.timestamp m))
                     (Db.manual_door_logs d))) by (apply Hf; auto).
      rewrite E in Hin. destruct Hin.
    + intros H.
      destruct (filter _ (Db.manual_door_logs d)) as [|m l];
        [reflexivity|].
      assert (Hin : In m (m :: l)) by now left.
      apply Hf in Hin. destruct Hin as [Hin Hw]. destruct (H m Hin Hw).
Qed.

(** A staff request stores a command only when it is a POST naming an
    active room by its key with the action open or close; a request that
    is refused returns the database as it was.  Whatever the request, no
    other table is touched and at most one command is appended, stamped
    with the time of the request. *)
Theorem command_is_stored_only_for_a_valid_request :
  forall (now : Z) (request : views_management.TriggerRequest.t) (d : Db.t),
    let d' := fst (views_management.manual_door_trigger now request d) in
    (d' = d
     \/ exists cmd room,
         Db.manual_door_logs d' = (Db.manual_door_logs d ++ [cmd])%list
         /\ views_management.TriggerRequest.method request = "POST"
         /\ In room (Db.rooms d)
         /\ Room.is_active room = true
         /\ views_management.TriggerRequest.POST_room_id request
            = views_management.RoomIdInt (Room.id room)
         /\ ManualDoorLog.room cmd = Room.id room
         /\ (ManualDoorLog.action cmd = "open"
             \/ ManualDoorLog.action cmd = "close")
         /\ ManualDoorLog.timestamp cmd = now
         /\ snd (views_management.manual_door_trigger now request d)
            = views_management.CommandSent cmd)
    /\ Db.rooms d' = Db.rooms d
    /\ Db.rfid_registrations d' = Db.rfid_registrations d
    /\ Db.room_schedules d' = Db.room_schedules d
    /\ Db.transaction_logs d' = Db.transaction_logs d
    /\ Db.system_settings d' = Db.system_settings d
    /\ Db.esp32_devices d' = Db.esp32_devices d.
Proof.
  intros now request d d'. subst d'.
  unfold views_management.manual_door_trigger.
  destruct (String.eqb_spec (views_management.TriggerRequest.method request)
              "POST") as [Hm|Hm]; [|cbn [fst]; tauto].
  destruct (views_management.TriggerRequest.POST_room_id request)
    as [|room_id|] eqn:Hid; [cbn [fst]; tauto| |].
  - destruct (views_management.TriggerRequest.POST_action request)
      as [a|] eqn:Ha; cbn [negb]; [|cbn [fst]; tauto].
    destruct (Py.contains a ["open"; "close"]) eqn:Hc; cbn [negb];
      [|cbn [fst]; tauto].
    destruct (find _ (Db.rooms d)) as [room|] eqn:Hf; [|cbn [fst]; tauto].
    cbn [fst snd views_management.create_manual_door_log].
    split; [|repeat split]. right.
    pose proof (find_some _ _ Hf) as [Hin Hp].
    apply andb_true_iff in Hp. destruct Hp as [Hk Hact].
    apply Z.eqb_eq in Hk.
    eexists. exists room. split; [reflexivity|].
    cbn [ManualDoorLog.room ManualDoorLog.action ManualDoorLog.timestamp
         views.text].
    repeat split; auto; try congruence.
    unfold Py.contains in Hc. cbn [existsb] in Hc.
    rewrite orb_false_r in Hc. apply orb_true_iff in Hc.
    rewrite !String.eqb_eq in Hc. exact Hc.
  - destruct (match views_management.TriggerRequest.POST_action request with
              | Some a => Py.contains a ["open"; "close"]
              | None => false
              end); cbn [fst]; tauto.
Qed.

Section LogDeletion.

Lemma filter_split_length {A : Type} (p : A -> bool) (l : list A) :
  (List.length (filter p l) + List.length (filter (fun x => negb (p x)) l)
   = List.length l)%nat.
Proof.
  induction l as [|a l IH]; [reflexivity|].
  cbn [filter]. destruct (p a); cbn [negb List.length]; lia.
Qed.

End LogDeletion.

(** Deleting command rows removes exactly the selected keys and touches
    nothing else; the count it reports is the number of rows removed; and
    no later poll, for any room and at any time, hands out a command whose
    key was selected.  A request that is not a POST, or selects nothing,
    leaves the database as it was. *)
Theorem deleted_commands_are_never_polled :
  forall (method : string) (log_ids : list Z) (d : Db.t),
    let d' := fst (management.manual_door_log_delete method log_ids d) in
    let report := snd (management.manual_door_log_delete method log_ids d) in
    (method <> "POST" \/ log_ids = [] -> d' = d)
    /\ (method = "POST" ->
        Db.manual_door_logs d'
        = filter (fun m => negb (existsb (Z.eqb (ManualDoorLog.id m)) log_ids))
                 (Db.manual_door_logs d)
        /\ (forall now room_code op,
               views.latest_operation now room_code d' = Some op ->
               In op (Db.manual_door_logs d)
               /\ ~ In (ManualDoorLog.id op) log_ids))
    /\ (forall n,
           report = management.LogsDeleted n ->
           0 < n
           /\ n = Z.of_nat (List.length (Db.manual_door_logs d))
                  - Z.of_nat (List.length (Db.manual_door_logs d')))
    /\ Db.rooms d' = Db.rooms d
    /\ Db.rfid_registrations d' = Db.rfid_registrations d
    /\ Db.room_schedules d' = Db.room_schedules d
    /\ Db.transaction_logs d' = Db.transaction_logs d
    /\ Db.system_settings d' = Db.system_settings d
    /\ Db.esp32_devices d' = Db.esp32_devices d.
Proof.
  intros method log_ids d d' report. subst d' report.
  unfold management.manual_door_log_delete.
  destruct (String.eqb_spec method "POST") as [Hm|Hm].
  - assert (Hlogs : Db.manual_door_logs
                      (fst (match log_ids with
                            | [] => (d, management.NoLogsSelected)
                            | _ :: _ =>
                                (Db.with_manual_door_logs
                                   (filter
                                      (fun m =>
                                         negb (existsb
                                                 (Z.eqb (ManualDoorLog.id m))
                                                 log_ids))
                                      (Db.manual_door_logs d)) d,
                                 if 0 <? Z.of_nat
                                           (List.length
                                              (filter
                                                 (fun m =>
                                                    existsb
                                                      (Z.eqb (ManualDoorLog.id m))
                                                      log_ids)
                                                 (Db.manual_door_logs d)))
                                 then management.LogsDeleted
                                        (Z.of_nat
                                           (List.length
                                              (filter
                                                 (fun m =>
                                                    existsb
                                                      (Z.eqb (ManualDoorLog.id m))
                                                      log_ids)
                                                 (Db.manual_door_logs d))))
                                 else management.NoLogsDeleted)
                            end))
                    = filter (fun m => negb (existsb (Z.eqb (ManualDoorLog.id m))
                                                     log_ids))
                             (Db.manual_door_logs d)).
    { destruct log_ids as [|i l]; [|reflexivity].
      cbn [fst existsb negb]. induction (Db.manual_door_logs d) as [|a r IH];
        [reflexivity|]. cbn [filter]. now rewrite <- IH. }
    split; [|split; [|split]].
    + intros [H|H]; [contradiction|]. now rewrite H.
    + intros _. split; [exact Hlogs|].
      intros now room_code op Hop.
      apply first_by_timestamp_desc_In in Hop.
      apply filter_In in Hop. destruct Hop as [Hin _].
      rewrite Hlogs in Hin. apply filter_In in Hin.
      destruct Hin as [Hin Hsel]. split; [exact Hin|].
      intros Hid. apply negb_true_iff in Hsel.
      assert (Ht : existsb (Z.eqb (ManualDoorLog.id op)) log_ids = true).
      { apply existsb_exists. exists (ManualDoorLog.id op).
        split; [exact Hid|apply Z.eqb_refl]. }
      congruence.
    + intros n. rewrite Hlogs.
      destruct log_ids as [|i l]; [discriminate|].
      remember (i :: l) as ids eqn:Eids. cbn [snd].
      pose proof (filter_split_length
                    (fun m => existsb (Z.eqb (ManualDoorLog.id m)) ids)
                    (Db.manual_door_logs d)) as Hlen.
      cbv beta in Hlen.
      destruct (Z.ltb_spec 0
                  (Z.of_nat
                     (List.length
                        (filter
                           (fun m => existsb (Z.eqb (ManualDoorLog.id m)) ids)
                           (Db.manual_door_logs d))))) as [Hpos|Hpos];
        [|discriminate].
      intros H. injection H as <-. split; [exact Hpos|]. lia.
    + destruct log_ids; repeat split.
  - split; [reflexivity|]. split; [contradiction|].
    split; [discriminate|]. repeat split.
Qed.

(** ** Staleness check: refusals, and staff edits made visible *)

(** A staleness check without a room code is answered 400 and one for an
    unknown or inactive room 404, without a verdict; and no check changes
    any table, the term settings row being created at most. *)
Theorem staleness_check_refusals_and_frame :
  forall (parse_datetime : string -> option Z)
         (GET_room GET_last_sync : option string) (d : Db.t),
    let answer :=
      views_api.esp32_check_updates parse_datetime GET_room GET_last_sync d in
    (Py.truthy GET_room = false ->
     fst answer = d
     /\ views_api.CheckResponse.http_status (snd answer) = 400
     /\ views_api.CheckResponse.needs_update (snd answer) = None)
    /\ (Py.truthy GET_room = true ->
        (forall r, In r (Db.rooms d) ->
                   Room.code r = views.text GET_room ->
                   Room.is_active r = false) ->
        fst answer = d
        /\ views_api.CheckResponse.http_status (snd answer) = 404
        /\ views_api.CheckResponse.needs_update (snd answer) = None)
    /\ Frame.same_rows (fst answer) d.
Proof.
  intros parse_datetime GET_room GET_last_sync d answer. subst answer.
  unfold views_api.esp32_check_updates. split; [|split].
  - intros H. rewrite H. repeat split.
  - intros H Hnone. rewrite H. cbn [negb].
    rewrite find_none_of; [repeat split|].
    intros x Hx.
    destruct (String.eqb_spec (Room.code x) (views.text GET_room)) as [E|E];
      [|reflexivity].
    cbn [andb]. now apply Hnone.
  - destruct (negb _); [repeat split|].
    destruct (find _ (Db.rooms d)) as [room|]; [|repeat split].
    rewrite (get_current_term_pair d). cbv beta iota zeta. cbn [fst].
    exact (get_current_term_tables d).
Qed.

Section Toggles.

Lemma schedule_toggle_found (now key : Z) (d : Db.t) (schedule : RoomSchedule.t) :
  find (fun s => RoomSchedule.id s =? key) (Db.room_schedules d)
  = Some schedule ->
  let toggled :=
    RoomSchedule.mk (RoomSchedule.id schedule) (RoomSchedule.room schedule)
      (RoomSchedule.semester schedule) (RoomSchedule.day_of_week schedule)
      (RoomSchedule.start_time schedule) (RoomSchedule.end_time schedule)
      (RoomSchedule.subject schedule) (RoomSchedule.instructor_name schedule)
      (RoomSchedule.faculty schedule) (negb (RoomSchedule.is_active schedule))
      now in
  fst (management.schedule_toggle_status now key d)
  = management.with_room_schedules
      (map (fun s => if RoomSchedule.id s =? RoomSchedule.id schedule
                     then toggled else s)
           (Db.room_schedules d)) d
  /\ In toggled (Db.room_schedules
                   (fst (management.schedule_toggle_status now key d)))
  /\ RoomSchedule.id schedule = key.
Proof.
  intros Hfind toggled.
  pose proof (find_some _ _ Hfind) as [Hin Hkey]. apply Z.eqb_eq in Hkey.
  unfold management.schedule_toggle_status. rewrite Hfind.
  cbn [fst RoomSchedule.id]. fold toggled. split; [reflexivity|].
  split; [|exact Hkey].
  cbn [Db.room_schedules management.with_room_schedules].
  apply in_map_iff. exists schedule. split; [|exact Hin].
  now rewrite Z.eqb_refl.
Qed.

Lemma current_term_of_settings (a b : Db.t) :
  Db.system_settings a = Db.system_settings b ->
  Db.current_term a = Db.current_term b.
Proof.
  unfold Db.current_term, Db.get_current_term. intros ->.
  now destruct (Db.system_settings b).
Qed.

End Toggles.

(** A staff edit is seen by the controllers: after a schedule row of a
    room and the current semester is toggled at time [now], a staleness
    check for that room with a last-sync time before [now] answers "needs
    update". *)
Theorem toggled_schedule_makes_the_room_stale :
  forall (parse_datetime : string -> option Z) (now key : Z) (d : Db.t)
         (schedule : RoomSchedule.t) (room : Room.t) (room_code text : string)
         (last_sync : Z),
    find (fun s => RoomSchedule.id s =? key) (Db.room_schedules d)
    = Some schedule ->
    room_code <> "" ->
    find (fun r => String.eqb (Room.code r) room_code && Room.is_active r)
         (Db.rooms d) = Some room ->
    RoomSchedule.room schedule = Room.id room ->
    RoomSchedule.semester schedule
    = SystemSettings.current_semester (Db.current_term d) ->
    text <> "" ->
    parse_datetime text = Some last_sync ->
    last_sync < now ->
    views_api.CheckResponse.needs_update
      (snd (views_api.esp32_check_updates parse_datetime (Some room_code)
              (Some text)
              (fst (management.schedule_toggle_status now key d))))
    = Some true.
Proof.
  intros parse_datetime now key d schedule room room_code text last_sync
         Hfind Hcode Hroom Hsr Hsem Htext Hparse Hlt.
  destruct (schedule_toggle_found now key d schedule Hfind) as (Hd1 & Hin & _).
  cbv zeta in Hd1, Hin.
  set (d1 := fst (management.schedule_toggle_status now key d)) in *.
  assert (Hrooms : Db.rooms d1 = Db.rooms d) by now rewrite Hd1.
  assert (Hterm : Db.current_term d1 = Db.current_term d)
    by (apply current_term_of_settings; now rewrite Hd1).
  unfold views_api.esp32_check_updates.
  rewrite (truthy_Some _ Hcode). cbn [negb views.text].
  rewrite Hrooms, Hroom, (get_current_term_pair d1), Hterm.
  cbv beta iota zeta. cbn [snd views_api.CheckResponse.needs_update].
  unfold views_api.needs_update.
  rewrite (truthy_Some _ Htext). cbn [views.text]. rewrite Hparse.
  f_equal. apply length_pos_iff, nonempty_has_member.
  eexists. unfold views_api.updated_schedules. apply filter_In. split.
  - destruct (get_current_term_tables d1) as (_ & _ & -> & _). exact Hin.
  - cbn [RoomSchedule.room RoomSchedule.semester RoomSchedule.updated_at].
    rewrite Hsr, Hsem, Z.eqb_refl, String.eqb_refl.
    cbn [andb]. apply Z.ltb_lt. exact Hlt.
Qed.

Lemma toggled_schedule_makes_the_room_stale_witness :
  views_api.CheckResponse.needs_update
    (snd (views_api.esp32_check_updates Scenario.parse_datetime (Some "203")
            (Some "1970-01-01T00:01:00")
            (fst (management.schedule_toggle_status (Clock.at_ 0 0 2) 1
                    Scenario.db0))))
  = Some true.
Proof.
  apply (toggled_schedule_makes_the_room_stale Scenario.parse_datetime
           (Clock.at_ 0 0 2) 1 Scenario.db0 Scenario.window Scenario.room203
           "203" "1970-01-01T00:01:00" (Clock.at_ 0 0 1)).
  - reflexivity.
  - discriminate.
  - reflexivity.
  - reflexivity.
  - reflexivity.
  - discriminate.
  - reflexivity.
  - reflexivity.
Defined.

(** A deactivated window grants nothing: when every window that
    authorises a swipe has the key of an active schedule row and that row
    is toggled, the same swipe is denied. *)
Theorem toggled_off_window_no_longer_grants :
  forall (now t key : Z) (request : views.SwipeRequest.t) (d : Db.t)
         (rfid : RFIDRegistration.t) (room : Room.t) (window : RoomSchedule.t),
    Spec.resolves request d rfid room ->
    RFIDRegistration.is_active rfid = true ->
    Room.is_active room = true ->
    find (fun s => RoomSchedule.id s =? key) (Db.room_schedules d)
    = Some window ->
    RoomSchedule.is_active window = true ->
    (forall s, In s (Db.room_schedules d) ->
               Spec.authorizes now rfid room
                 (SystemSettings.current_semester (Db.current_term d)) s ->
               RoomSchedule.id s = key) ->
    snd (management.schedule_toggle_status t key d) = management.Deactivated
    /\ views.SwipeResponse.access_granted
         (snd (views.rfid_swipe now request
                 (fst (management.schedule_toggle_status t key d))))
       = false.
Proof.
  intros now t key request d rfid room window Hres Ha Hb Hfind Hact Honly.
  split.
  { unfold management.schedule_toggle_status. rewrite Hfind, Hact. reflexivity. }
  destruct (schedule_toggle_found t key d window Hfind) as (Hd1 & _ & Hkey).
  cbv zeta in Hd1.
  set (d1 := fst (management.schedule_toggle_status t key d)) in *.
  assert (Hres1 : Spec.resolves request d1 rfid room).
  { destruct Hres as (H1 & H2 & H3 & H4). rewrite Hd1.
    repeat split; assumption. }
  assert (Hterm : Db.current_term d1 = Db.current_term d)
    by (apply current_term_of_settings; now rewrite Hd1).
  rewrite (rfid_swipe_active now request d1 rfid room Hres1 Ha Hb).
  cbn [snd views.SwipeResponse.access_granted].
  apply not_true_is_false. intros Hg.
  apply decide_granted_iff in Hg. destruct Hg as (s & Hin & Hauth).
  destruct (get_current_term_tables d1) as (_ & _ & Hs & _).
  rewrite Hs, Hd1 in Hin. rewrite Hterm in Hauth.
  cbn [Db.room_schedules management.with_room_schedules] in Hin.
  apply in_map_iff in Hin. destruct Hin as (r & Hr & Hrin).
  destruct (Z.eqb_spec (RoomSchedule.id r) (RoomSchedule.id window)) as [E|E].
  - subst s. destruct Hauth as ((_ & _ & _ & Hoff) & _).
    cbn [RoomSchedule.is_active] in Hoff. rewrite Hact in Hoff. discriminate.
  - subst s. apply E. rewrite Hkey. now apply Honly.
Qed.

Lemma toggled_off_window_no_longer_grants_witness :
  Spec.resolves Scenario.swipe Scenario.db0 Scenario.card Scenario.room203
  /\ views.SwipeResponse.access_granted
       (snd (views.rfid_swipe Scenario.monday_0830 Scenario.swipe Scenario.db0))
     = true
  /\ views.SwipeResponse.access_granted
       (snd (views.rfid_swipe Scenario.monday_0830 Scenario.swipe
               (fst (management.schedule_toggle_status 0 1 Scenario.db0))))
     = false.
Proof.
  assert (Hres : Spec.resolves Scenario.swipe Scenario.db0 Scenario.card
                               Scenario.room203)
    by (repeat split; reflexivity).
  split; [exact Hres|]. split; [reflexivity|].
  apply (toggled_off_window_no_longer_grants Scenario.monday_0830 0 1
           Scenario.swipe Scenario.db0 Scenario.card Scenario.room203
           Scenario.window Hres eq_refl eq_refl eq_refl eq_refl).
  intros s [<-|[]] _. reflexivity.
Defined.

Section RoomToggle.

Lemma find_code_after_toggle (c : string) (key : Z) (off : Room.t)
      (rooms : list Room.t) (room : Room.t) :
  find (fun r => String.eqb (Room.code r) c) rooms = Some room ->
  Room.id room = key ->
  Room.code off = c ->
  find (fun r => String.eqb (Room.code r) c)
       (map (fun r => if Room.id r =? key then off else r) rooms)
  = Some off.
Proof.
  intros Hfind Hkey Hoff.
  induction rooms as [|a l IH]; [discriminate|].
  cbn [find map] in Hfind |- *.
  destruct (Z.eqb_spec (Room.id a) key) as [E|E].
  - now rewrite Hoff, String.eqb_refl.
  - destruct (String.eqb (Room.code a) c) eqn:Ec; cbv iota in Hfind.
    + injection Hfind as Hfind. subst a. contradiction.
    + now apply IH.
Qed.

End RoomToggle.

(** Deactivating a room blocks every access decision for it and deletes
    no history: after an active room is toggled, the ledger is what it
    was, and any swipe naming that room's code is not granted and writes
    nothing. *)
Theorem deactivated_room_refuses_every_swipe :
  forall (now key : Z) (request : views.SwipeRequest.t) (d : Db.t)
         (room : Room.t),
    find (fun r => Room.id r =? key) (Db.rooms d) = Some room ->
    Room.is_active room = true ->
    find (fun r => String.eqb (Room.code r)
                              (views.text (Spec.swipe_room request)))
         (Db.rooms d) = Some room ->
    let d1 := fst (management.room_toggle_status key d) in
    snd (management.room_toggle_status key d) = management.Deactivated
    /\ Db.transaction_logs d1 = Db.transaction_logs d
    /\ fst (views.rfid_swipe now request d1) = d1
    /\ views.SwipeResponse.access_granted
         (snd (views.rfid_swipe now request d1)) = false.
Proof.
  intros now key request d room Hfind Hact Hcode d1. subst d1.
  pose proof (find_some _ _ Hfind) as [_ Hkey]. apply Z.eqb_eq in Hkey.
  unfold management.room_toggle_status. rewrite Hfind, Hact.
  cbn [fst snd negb management.report Room.is_active Room.id].
  split; [reflexivity|]. split; [reflexivity|].
  pose proof (find_some _ _ Hcode) as [_ Hc]. apply String.eqb_eq in Hc.
  unfold Spec.swipe_room in Hcode, Hc. unfold views.rfid_swipe.
  destruct (negb _ || negb _); [split; reflexivity|].
  cbn [Db.rfid_registrations management.with_rooms].
  destruct (find _ (Db.rfid_registrations d)) as [rfid|]; [|split; reflexivity].
  destruct (negb (RFIDRegistration.is_active rfid)); [split; reflexivity|].
  cbn [Db.rooms management.with_rooms].
  rewrite (find_code_after_toggle _ (Room.id room)
             (Room.mk (Room.id room) (Room.code room) (Room.description room)
                      false)
             (Db.rooms d) room Hcode eq_refl Hc).
  split; reflexivity.
Qed.

Lemma deactivated_room_refuses_every_swipe_witness :
  views.SwipeResponse.access_granted
    (snd (views.rfid_swipe Scenario.monday_0830 Scenario.swipe Scenario.db0))
  = true
  /\ views.SwipeResponse.access_granted
       (snd (views.rfid_swipe Scenario.monday_0830 Scenario.swipe
               (fst (management.room_toggle_status 1 Scenario.db0))))
     = false.
Proof.
  split; [reflexivity|].
  apply (deactivated_room_refuses_every_swipe Scenario.monday_0830 1
           Scenario.swipe Scenario.db0 Scenario.room203
           eq_refl eq_refl eq_refl).
Defined.

(** ** The offline-event merge: refusals and frame *)

(** A body that is not a JSON object is answered 400; an unknown badge
    or room, a missing flag or a timestamp that does not convert is
    answered 500; in all these cases the ledger is what it was.  Whatever
    the body, the merge touches no table but the ledger (and the term
    settings row, created at most), and the answer is 200 exactly when one
    row was appended. *)
Theorem offline_merge_refusals_and_frame :
  forall (request_body : option views_api.OfflineEvent.t) (d : Db.t),
    let answer := views_api.esp32_log_offline_access request_body d in
    let status := views_api.OfflineResponse.http_status (snd answer) in
    (request_body = None -> fst answer = d /\ status = 400)
    /\ (forall data,
           request_body = Some data ->
           views_api.lookup_code RFIDRegistration.rfid_code
             (views_api.OfflineEvent.rfid_code data) (Db.rfid_registrations d)
           = None
           \/ views_api.lookup_code Room.code
                (views_api.OfflineEvent.room_code data) (Db.rooms d) = None ->
           fst answer = d /\ status = 500)
    /\ (forall data,
           request_body = Some data ->
           views_api.OfflineEvent.access_granted data = None
           \/ views_api.OfflineEvent.timestamp data = views_api.TsValue None ->
           Db.transaction_logs (fst answer) = Db.transaction_logs d
           /\ status <> 200)
    /\ (status = 200 /\ (exists new, Db.transaction_logs (fst answer)
                                     = (Db.transaction_logs d ++ [new])%list)
        \/ status <> 200
           /\ Db.transaction_logs (fst answer) = Db.transaction_logs d)
    /\ Db.rooms (fst answer) = Db.rooms d
    /\ Db.rfid_registrations (fst answer) = Db.rfid_registrations d
    /\ Db.room_schedules (fst answer) = Db.room_schedules d
    /\ Db.manual_door_logs (fst answer) = Db.manual_door_logs d
    /\ Db.esp32_devices (fst answer) = Db.esp32_devices d.
Proof.
  intros request_body d answer status. subst answer status.
  unfold views_api.esp32_log_offline_access.
  destruct request_body as [data|].
  2:{ split; [intros _; split; reflexivity|].
      split; [discriminate|]. split; [discriminate|].
      split; [right; split; [discriminate|reflexivity]|]. repeat split. }
  split; [discriminate|].
  destruct (views_api.lookup_code RFIDRegistration.rfid_code _ _)
    as [rfid|] eqn:Hr.
  2:{ split; [intros ? _ _; split; reflexivity|].
      split; [intros ? _ _; split; [reflexivity|discriminate]|].
      split; [right; split; [discriminate|reflexivity]|]. repeat split. }
  destruct (views_api.lookup_code Room.code _ _) as [room|] eqn:Hm.
  2:{ split; [intros ? _ _; split; reflexivity|].
      split; [intros ? _ _; split; [reflexivity|discriminate]|].
      split; [right; split; [discriminate|reflexivity]|]. repeat split. }
  rewrite (get_current_term_pair d). cbv beta iota zeta.
  destruct (get_current_term_tables d) as (H1 & H2 & H3 & H4 & H5 & H6).
  split; [intros data' E [H|H]; injection E as <-; congruence|].
  unfold views_api.offline_row.
  split.
  - intros data' E H. injection E as <-.
    destruct H as [H|H]; rewrite H;
      [|destruct (views_api.OfflineEvent.access_granted data)];
      cbn [fst snd views_api.OfflineResponse.http_status];
      (split; [exact H4|discriminate]).
  - destruct (views_api.OfflineEvent.access_granted data) as [g|];
      [destruct (views_api.OfflineEvent.timestamp data) as [|[t|]]|];
      cbn [fst snd views_api.OfflineResponse.http_status
           Db.create_transaction_log Db.transaction_logs
           Db.with_transaction_logs Db.rooms Db.rfid_registrations
           Db.room_schedules Db.manual_door_logs Db.esp32_devices];
      rewrite ?H1, ?H2, ?H3, ?H4, ?H5, ?H6;
      (split; [|repeat split]);
      try (left; split; [reflexivity|eexists; reflexivity]);
      try (right; split; [discriminate|reflexivity]).
Qed.

(** ** Bulk deletions and the ledger *)

Section Deletions.

Lemma open_count_filter_le (keep : TransactionLog.t -> bool) rfid room ay sem
      (logs : list TransactionLog.t) :
  (Ledger.open_count rfid room ay sem (filter keep logs)
   <= Ledger.open_count rfid room ay sem logs)%nat.
Proof.
  unfold Ledger.open_count. induction logs as [|a l IH]; [apply Nat.le_refl|].
  cbn [filter]. destruct (keep a); cbn [filter];
    destruct (views.is_open_log rfid room ay sem a); cbn [List.length]; lia.
Qed.

Lemma open_count_filter_granted rfid room ay sem (logs : list TransactionLog.t) :
  Ledger.open_count rfid room ay sem (filter TransactionLog.access_granted logs)
  = Ledger.open_count rfid room ay sem logs.
Proof.
  unfold Ledger.open_count. induction logs as [|a l IH]; [reflexivity|].
  cbn [filter]. destruct (TransactionLog.access_granted a) eqn:G.
  - cbn [filter]. destruct (views.is_open_log rfid room ay sem a);
      cbn [List.length]; now rewrite IH.
  - rewrite (denied_is_not_open rfid room ay sem a G). exact IH.
Qed.


End Deletions.

(** Deleting the denied rows removes exactly the rows that are not
    granted, reports their number, keeps the granted rows in order and
    leaves the number of open rows of every credential, room and term
    what it was. *)
Theorem delete_denied_logs_keeps_sessions :
  forall (d : Db.t),
    let d' := fst (admin.delete_denied_logs d) in
    Db.transaction_logs d'
    = filter TransactionLog.access_granted (Db.transaction_logs d)
    /\ (forall l, In l (Db.transaction_logs d') ->
                  TransactionLog.access_granted l = true)
    /\ (forall rfid room ay sem,
           Ledger.open_count rfid room ay sem (Db.transaction_logs d')
           = Ledger.open_count rfid room ay sem (Db.transaction_logs d))
    /\ snd (admin.delete_denied_logs d)
       = Z.of_nat (List.length (Db.transaction_logs d))
         - Z.of_nat (List.length (Db.transaction_logs d'))
    /\ Db.rooms d' = Db.rooms d
    /\ Db.rfid_registrations d' = Db.rfid_registrations d
    /\ Db.room_schedules d' = Db.room_schedules d
    /\ Db.system_settings d' = Db.system_settings d
    /\ Db.manual_door_logs d' = Db.manual_door_logs d
    /\ Db.esp32_devices d' = Db.esp32_devices d.
Proof.
  intros d d'. subst d'. unfold admin.delete_denied_logs.
  cbn [fst snd Db.transaction_logs Db.with_transaction_logs].
  split; [reflexivity|]. split; [|split; [|split]].
  - intros l Hl. now apply filter_In in Hl.
  - intros. apply open_count_filter_granted.
  - pose proof (filter_split_length TransactionLog.access_granted
                  (Db.transaction_logs d)) as H.
    lia.
  - repeat split.
Qed.

(** Deleting old rows removes exactly the rows opened more than 180 days
    before [now]; rows without an open time stay, whatever their age.  It
    does not look at whether a row is closed, so it can only lower the
    number of open rows, and the at-most-one-open-row invariant is
    kept. *)
Theorem delete_old_logs_removes_by_open_time_only :
  forall (now : Z) (d : Db.t),
    let d' := fst (admin.delete_old_logs now d) in
    (forall l,
        In l (Db.transaction_logs d') <->
        In l (Db.transaction_logs d)
        /\ (TransactionLog.open_time l = None
            \/ exists o, TransactionLog.open_time l = Some o
                         /\ now - 180 * Clock.usec_per_day <= o))
    /\ (forall rfid room ay sem,
           (Ledger.open_count rfid room ay sem (Db.transaction_logs d')
            <= Ledger.open_count rfid room ay sem (Db.transaction_logs d))%nat)
    /\ (Ledger.currently_out_invariant (Db.transaction_logs d) ->
        Ledger.currently_out_invariant (Db.transaction_logs d'))
    /\ snd (admin.delete_old_logs now d)
       = Z.of_nat (List.length (Db.transaction_logs d))
         - Z.of_nat (List.length (Db.transaction_logs d')).
Proof.
  intros now d d'. subst d'. unfold admin.delete_old_logs.
  cbn [fst snd Db.transaction_logs Db.with_transaction_logs].
  split; [|split; [|split]].
  - intros l. rewrite filter_In. unfold admin.opened_before, admin.six_months.
    destruct (TransactionLog.open_time l) as [o|].
    + rewrite negb_true_iff, Z.ltb_ge. split.
      * intros [H1 H2]. split; [exact H1|]. right. exists o. auto.
      * intros [H1 [H2|(o' & H2 & H3)]]; [discriminate|].
        injection H2 as <-. auto.
    + split; intros [H1 _]; auto.
  - intros. apply open_count_filter_le.
  - intros Hinv rfid room ay sem.
    etransitivity; [apply open_count_filter_le|apply Hinv].
  - pose proof (filter_split_length
                  (admin.opened_before (now - admin.six_months))
                  (Db.transaction_logs d)) as H.
    cbv beta in H. lia.
Qed.



(** ** The schedule form and the swipe handler *)

Section FormDays.

Lemma choice_is_clean (x : string) :
  In x forms.day_choices ->
  Py.lower x = x /\ Py.lower (Py.strip x) = x.
Proof.
  unfold forms.day_choices. cbn [In].
  intros [<-|[<-|[<-|[<-|[<-|[<-|[<-|[]]]]]]]]; split; reflexivity.
Qed.

Lemma split_choice (x rest : string) :
  In x forms.day_choices ->
  Py.split "," (x ++ "," ++ rest) = x :: Py.split "," rest
  /\ Py.split "," x = [x].
Proof.
  unfold forms.day_choices. cbn [In].
  intros [<-|[<-|[<-|[<-|[<-|[<-|[<-|[]]]]]]]]; split; reflexivity.
Qed.

Lemma split_join_choices (days : list string) :
  days <> [] ->
  (forall x, In x days -> In x forms.day_choices) ->
  Py.split "," (forms.join_comma days) = days.
Proof.
  induction days as [|x l IH]; [congruence|]. intros _ Hall.
  destruct l as [|y l].
  - cbn [forms.join_comma].
    apply (proj2 (split_choice x "" (Hall x (or_introl eq_refl)))).
  - change (forms.join_comma (x :: y :: l))
      with (x ++ "," ++ forms.join_comma (y :: l))%string.
    destruct (split_choice x (forms.join_comma (y :: l))) as [-> _];
      [apply Hall; now left|].
    f_equal. apply IH; [discriminate|]. intros z Hz. apply Hall. now right.
Qed.

Lemma map_id_on {A : Type} (f : A -> A) (l : list A) :
  (forall x, In x l -> f x = x) -> map f l = l.
Proof.
  induction l as [|a l IH]; intros H; [reflexivity|].
  cbn [map]. rewrite (H a) by now left. f_equal. apply IH.
  intros x Hx. apply H. now right.
Qed.

Lemma short_name_is_no_choice (now : Z) :
  ~ In (Py.prefix 3 (Py.lower (Clock.strftime_A now))) forms.day_choices.
Proof.
  unfold Clock.strftime_A, forms.day_choices.
  destruct (Clock.weekday_of now); cbn; intuition discriminate.
Qed.

End FormDays.

(** The schedule form and the swipe handler agree on the days: the form
    rejects an empty selection, and the text it stores for a selection of
    its weekday choices is read back by the handler as exactly that
    selection, so a window stored through the form names today exactly
    when today's weekday was selected. *)
Theorem form_days_round_trip_to_the_swipe_test :
  forms.clean_day_of_week [] = None
  /\ forall (days : list string) (s : RoomSchedule.t) (now : Z),
      days <> [] ->
      (forall x, In x days -> In x forms.day_choices) ->
      forms.clean_day_of_week days = Some (RoomSchedule.day_of_week s) ->
      views.days_list s = days
      /\ (Spec.names_today now s <->
          In (Py.lower (Clock.strftime_A now)) days).
Proof.
  split; [reflexivity|].
  intros days s now Hne Hall Hclean.
  assert (Hlow : map Py.lower days = days)
    by (apply map_id_on; intros x Hx; now apply choice_is_clean, Hall).
  assert (Htext : RoomSchedule.day_of_week s = forms.join_comma days).
  { unfold forms.clean_day_of_week in Hclean. rewrite Hlow in Hclean.
    destruct days; [congruence|]. now injection Hclean as <-. }
  assert (Hdays : views.days_list s = days).
  { unfold views.days_list. rewrite Htext, (split_join_choices days Hne Hall).
    apply map_id_on. intros x Hx. now apply choice_is_clean, Hall. }
  split; [exact Hdays|].
  rewrite names_today_iff, Hdays. unfold Py.contains.
  rewrite !existsb_exists. split.
  - intros [(x & Hx & E)|(x & Hx & E)]; apply String.eqb_eq in E; subst x.
    + exact Hx.
    + exfalso. apply (short_name_is_no_choice now). now apply Hall.
  - intros H. left. exists (Py.lower (Clock.strftime_A now)).
    split; [exact H|apply String.eqb_refl].
Qed.

Lemma form_days_round_trip_to_the_swipe_test_witness :
  views.days_list Scenario.window_mw = ["monday"; "wednesday"]
  /\ Spec.names_today Scenario.wednesday_0830 Scenario.window_mw.
Proof.
  destruct (proj2 form_days_round_trip_to_the_swipe_test
              ["monday"; "wednesday"] Scenario.window_mw
              Scenario.wednesday_0830) as [H1 H2].
  - discriminate.
  - intros x [<-|[<-|[]]]; cbn; auto 10.
  - reflexivity.
  - split; [exact H1|]. apply H2. right. now left.
Defined.

(** ** Sessions are kept per term *)

Section TermChange.


End TermChange.


